(** * med-image: the DICOM batch pipeline and its support system

    A shallow embedding of [dicom_pipeline_Manager.py] (class
    [DICOMPipelineManager]) and of [dicom-image-sup.py] (class
    [MedicalDeviceSupportSystem]).

    The two classes talk to AWS through boto3 clients and to the operator
    through the [logging] module.  Both are effects: a method is modelled
    as a computation over the _trace_ of everything that has happened so
    far (log records, requests sent to a service), which
    either returns a value or raises a Python exception.  The services are
    a record of oracles that answer a request from the history of the run,
    so that a theorem quantified over the record covers every behaviour of
    the collaborators, including one that fails on the second call only. *)

From Stdlib Require Import String Ascii List Bool Arith ZArith Lia.
Import ListNotations.
Open Scope string_scope.

(* ------------------------------------------------------------------ *)
(** ** Python values, exceptions and the string operations used *)

Module Py.

(** A raised exception: its class name, [str(e)], and whether the class
    derives from [Exception] (what [except Exception] catches) or only from
    [BaseException] ([KeyboardInterrupt], [SystemExit]). *)
Record pyexc : Type := mk_exc {
  exc_type : string;
  exc_str : string;
  exc_is_Exception : bool
}.

Definition TypeError (msg : string) : pyexc := mk_exc "TypeError" msg true.
Definition KeyError (key : string) : pyexc :=
  mk_exc "KeyError" ("'" ++ key ++ "'") true.
Definition IndexError (msg : string) : pyexc := mk_exc "IndexError" msg true.

(** The result of evaluating an expression or a call. *)
Inductive outcome (A : Type) : Type :=
| Return (a : A)
| Raise (e : pyexc).
Arguments Return {A} a.
Arguments Raise {A} e.

(** The objects of the list handed to [process_images] that are modelled:
    a [str] key, which is what the object store yields, and three shapes on
    which an operation of the loop body raises, [None], a [bool] and a list
    of [str].  The engine formats the object in the f-string of every log
    call, the one of its handler included (lines 31, 34, 36, 39, 41, 43):
    on these four shapes formatting always succeeds, so that a log call
    only writes a record.  Objects whose formatting can itself raise (an
    [int] beyond the digit limit of [str()], a deeply nested list) are not
    in the type: on them the handler of line 43 raises in its turn and the
    exception leaves [process_images]. *)
Inductive pyval : Type :=
| PyNone
| PyBool (b : bool)
| PyStr (s : string)
| PyList (l : list string).

(** [needle in hay] on two [str]: [needle] occurs at some offset.  Keys are
    byte strings here; for an ASCII needle the test agrees with the one on
    code points. *)
Fixpoint str_contains (needle hay : string) : bool :=
  String.prefix needle hay ||
  match hay with
  | EmptyString => false
  | String _ hay' => str_contains needle hay'
  end.

(** [s.endswith(suffix)]. *)
Definition endswith (s suffix : string) : bool :=
  (String.length suffix <=? String.length s)%nat &&
  String.eqb
    (String.substring (String.length s - String.length suffix)
                      (String.length suffix) s)
    suffix.

(** [sep.join(items)] on a list of [str]. *)
Fixpoint join (sep : string) (items : list string) : string :=
  match items with
  | [] => EmptyString
  | [x] => x
  | x :: rest => x ++ sep ++ join sep rest
  end.

(** [needle in l] on a list of [str]: some item equals [needle]. *)
Definition list_contains (needle : string) (l : list string) : bool :=
  existsb (String.eqb needle) l.
Arguments list_contains : simpl never.

(** The one-character string holding a double quote. *)
Definition dquote : string := String (ascii_of_nat 34) EmptyString.

(** [needle in file] where [needle] is a [str] literal. *)
Definition py_in (needle : string) (file : pyval) : outcome bool :=
  match file with
  | PyStr s => Return (str_contains needle s)
  | PyList l => Return (list_contains needle l)
  | PyBool _ => Raise (TypeError "argument of type 'bool' is not iterable")
  | PyNone => Raise (TypeError "argument of type 'NoneType' is not iterable")
  end.

(** [file + suffix] where [suffix] is a [str] literal: only [str + str]
    is defined. *)
Definition py_add_str (file : pyval) (suffix : string) : outcome string :=
  match file with
  | PyStr s => Return (s ++ suffix)
  | PyList _ =>
      Raise (TypeError ("can only concatenate list (not " ++ dquote ++ "str"
                        ++ dquote ++ ") to list"))
  | PyBool _ =>
      Raise (TypeError "unsupported operand type(s) for +: 'bool' and 'str'")
  | PyNone =>
      Raise (TypeError "unsupported operand type(s) for +: 'NoneType' and 'str'")
  end.

(** [seq[0]]. *)
Definition index0 {A : Type} (l : list A) : outcome A :=
  match l with
  | x :: _ => Return x
  | [] => Raise (IndexError "list index out of range")
  end.

(** [range(n)]. *)
Definition range (n : nat) : list nat := seq 0 n.

End Py.
Import Py.

(* ------------------------------------------------------------------ *)
(** ** Effects: the trace, the services and the monad of a method *)

Module Effects.

(** Levels of the [logging] module. *)
Inductive level : Type := DEBUG | INFO | WARNING | ERROR | CRITICAL.

(** One row of a Logs Insights result: (field, value) pairs. *)
Definition query_result : Type := list (string * string).

(** The messages the two classes log, one constructor per f-string of the
    source with the values it interpolates. *)
Inductive log_msg : Type :=
| Found_DICOM_files (n : nat)
| Applying_operation (i : nat) (file : pyval)
| Condition_met (i j : nat) (file : pyval)
| Skipping (i j : nat) (file : pyval)
| Processing_complete_for (file : pyval)
| File_already_processed (file : pyval)
| Failed_to_process (file : pyval) (str_e : string)
| Notification_sent_for_processed_files
| No_DICOM_files_to_process
| Notification_sent_to (topic_arn message : string)
| Error_sending_notification (str_e : string)
| Unusual_access_pattern_detected (result : query_result)
| Error_auditing_system_access (str_e : string)
| Invoked_Lambda_function (function_name : string)
| Error_invoking_Lambda_function (str_e : string).

(** The Engine and the Notifier: entering either is recorded, so that the
    number of their invocations in a run can be read off the trace. *)
Inductive method : Type :=
| M_process_images
| M_notify_completion.

(** What a run leaves behind, oldest first.  A [logging] call is recorded
    with its level whatever the configured threshold. *)
Inductive event : Type :=
| ELog (lvl : level) (msg : log_msg)
| EEnter (m : method)
| EDatetimeNow
| ES3ListObjectsV2 (Bucket : string)
| ESnsPublish (TopicArn Message : string) (Subject : option string)
| ECloudWatchDescribeAlarms (StateValue : string)
| ELambdaInvoke (FunctionName InvocationType Payload : string)
| ELogsStartQuery (logGroupName : string) (startTime endTime : Z)
                  (queryString : string)
| ELogsGetQueryResults (queryId : string).

Definition trace : Type := list event.

(** The fields of the boto3 responses that the code reads. *)
Record s3_object : Type := { Key : string }.
Record list_objects_v2_response : Type := {
  Contents : option (list s3_object)   (* the key is absent for an empty bucket *)
}.
Record publish_response : Type := { MessageId : string }.
Record metric_alarm : Type := {
  AlarmName : string;
  AlarmActions : list string
}.
Record describe_alarms_response : Type := { MetricAlarms : list metric_alarm }.
Record invoke_response : Type := { StatusCode : Z }.
Record start_query_response : Type := { queryId : string }.
Record get_query_results_response : Type := { results : list query_result }.

(** The collaborators.  Each oracle sees the trace up to its call. *)
Record services : Type := {
  s3_list_objects_v2 : trace -> string -> outcome list_objects_v2_response;
  sns_publish :
    trace -> string -> string -> option string -> outcome publish_response;
  cloudwatch_describe_alarms :
    trace -> string -> outcome describe_alarms_response;
  lambda_invoke :
    trace -> string -> string -> string -> outcome invoke_response;
  logs_start_query :
    trace -> string -> Z -> Z -> string -> outcome start_query_response;
  logs_get_query_results :
    trace -> string -> outcome get_query_results_response;
  (* int((datetime.datetime.now() - datetime.timedelta(days=1)).timestamp()) *)
  datetime_day_ago_timestamp : trace -> Z;
  (* int(datetime.datetime.now().timestamp()) *)
  datetime_now_timestamp : trace -> Z
}.

(** A method body: from the trace so far to the extended trace and either
    a value or a raised exception. *)
Definition Eff (A : Type) : Type := trace -> trace * outcome A.

Definition ret {A : Type} (a : A) : Eff A := fun t => (t, Return a).

Definition bind {A B : Type} (c : Eff A) (k : A -> Eff B) : Eff B :=
  fun t =>
    match c t with
    | (t', Return a) => k a t'
    | (t', Raise e) => (t', Raise e)
    end.

(** An expression that may raise and has no effect otherwise. *)
Definition lift {A : Type} (o : outcome A) : Eff A := fun t => (t, o).

Definition emit (ev : event) : Eff unit := fun t => ((t ++ [ev])%list, Return tt).

(** A request to a collaborator: recorded, then answered. *)
Definition request {A : Type} (ev : event) (answer : trace -> outcome A)
  : Eff A :=
  fun t => ((t ++ [ev])%list, answer t).

(** [try: body except Exception as e: handler(e)]. *)
Definition try_except {A : Type} (body : Eff A) (handler : pyexc -> Eff A)
  : Eff A :=
  fun t =>
    match body t with
    | (t', Return a) => (t', Return a)
    | (t', Raise e) =>
        if exc_is_Exception e then handler e t' else (t', Raise e)
    end.

Declare Scope eff_scope.
Delimit Scope eff_scope with eff.
Notation "x <- c ;; k" := (bind c (fun x => k))
  (at level 61, c at next level, right associativity) : eff_scope.
Notation "c ;; k" := (bind c (fun _ => k))
  (at level 61, right associativity) : eff_scope.
Open Scope eff_scope.

(** [for x in l: body(x)]. *)
Fixpoint for_in {A : Type} (l : list A) (body : A -> Eff unit) : Eff unit :=
  match l with
  | [] => ret tt
  | x :: l' => body x ;; for_in l' body
  end.

Definition enter (m : method) : Eff unit := emit (EEnter m).

Definition logging_debug (msg : log_msg) : Eff unit := emit (ELog DEBUG msg).
Definition logging_info (msg : log_msg) : Eff unit := emit (ELog INFO msg).
Definition logging_warning (msg : log_msg) : Eff unit :=
  emit (ELog WARNING msg).
Definition logging_error (msg : log_msg) : Eff unit := emit (ELog ERROR msg).
Definition logging_critical (msg : log_msg) : Eff unit :=
  emit (ELog CRITICAL msg).

(** Truth value of a list in a condition. *)
Definition truthy {A : Type} (l : list A) : bool :=
  match l with [] => false | _ :: _ => true end.

End Effects.
Import Effects.

(* ------------------------------------------------------------------ *)
(** ** dicom_pipeline_Manager.py *)

Module DICOMPipelineManager.
Section Manager.

Variable svc : services.
(** [self.s3_bucket_name] and [self.sns_topic_arn]. *)
Variables s3_bucket_name sns_topic_arn : string.

(** [files['Contents']]. *)
Definition getitem_Contents (files : list_objects_v2_response)
  : outcome (list s3_object) :=
  match Contents files with
  | Some l => Return l
  | None => Raise (KeyError "Contents")
  end.

Definition fetch_dicom_files : Eff (list string) :=
  files <- request (ES3ListObjectsV2 s3_bucket_name)
                   (fun t => s3_list_objects_v2 svc t s3_bucket_name) ;;
  contents <- lift (getitem_Contents files) ;;
  let dicom_files :=
    map Key (filter (fun file => endswith (Key file) ".dcm") contents) in
  logging_info (Found_DICOM_files (length dicom_files)) ;;
  ret dicom_files.

(** The two nested loops of the transformation. *)
Definition apply_operations (file : pyval) : Eff unit :=
  for_in (range 5) (fun i =>
    logging_info (Applying_operation i file) ;;
    for_in (range 3) (fun j =>
      if ((i * j) mod 2 =? 0)%nat
      then logging_debug (Condition_met i j file)
      else logging_debug (Skipping i j file))).

(** The suite of the [try] for one file; [processed_files] is the list
    built so far and the returned list is the list afterwards. *)
Definition process_images_try (file : pyval) (processed_files : list string)
  : Eff (list string) :=
  carries <- lift (py_in "processed" file) ;;
  if negb carries then
    apply_operations file ;;
    output <- lift (py_add_str file "_processed") ;;
    let processed_files := (processed_files ++ [output])%list in
    logging_info (Processing_complete_for file) ;;
    ret processed_files
  else
    logging_warning (File_already_processed file) ;;
    ret processed_files.

(** One iteration of the loop over [dicom_files]: the [try] with its
    [except Exception].  Nothing after the [append] can raise, so the list
    the handler leaves is the list the iteration started with. *)
Definition process_images_iter (file : pyval) (processed_files : list string)
  : Eff (list string) :=
  try_except
    (process_images_try file processed_files)
    (fun e =>
       logging_error (Failed_to_process file (exc_str e)) ;;
       ret processed_files).

Fixpoint process_images_loop (dicom_files : list pyval)
    (processed_files : list string) : Eff (list string) :=
  match dicom_files with
  | [] => ret processed_files
  | file :: rest =>
      processed_files <- process_images_iter file processed_files ;;
      process_images_loop rest processed_files
  end.

Definition process_images (dicom_files : list pyval) : Eff (list string) :=
  enter M_process_images ;;
  process_images_loop dicom_files [].

Definition notify_completion (processed_files : list string) : Eff unit :=
  enter M_notify_completion ;;
  let message :=
    "Processing completed for files: " ++ join ", " processed_files in
  response <- request
    (ESnsPublish sns_topic_arn message (Some "DICOM Processing Notification"))
    (fun t => sns_publish svc t sns_topic_arn message
                          (Some "DICOM Processing Notification")) ;;
  logging_info Notification_sent_for_processed_files.

(** The suite of [if dicom_files:] in [run_pipeline] (lines 60-61). *)
Definition run_pipeline_then (dicom_files : list pyval) : Eff unit :=
  processed_files <- process_images dicom_files ;;
  notify_completion processed_files.

(** The keys fetched are [str] objects. *)
Definition run_pipeline : Eff unit :=
  dicom_files <- fetch_dicom_files ;;
  if truthy dicom_files then
    run_pipeline_then (map PyStr dicom_files)
  else
    logging_info No_DICOM_files_to_process.

End Manager.
End DICOMPipelineManager.

(* ------------------------------------------------------------------ *)
(** ** dicom-image-sup.py *)

Module MedicalDeviceSupportSystem.
Section SupportSystem.

Variable svc : services.

Definition log_event (message : log_msg) (level : string) : Eff unit :=
  if String.eqb level "info" then logging_info message
  else if String.eqb level "warning" then logging_warning message
  else if String.eqb level "error" then logging_error message
  else if String.eqb level "critical" then logging_critical message
  else logging_debug message.

(** Returns the response of the publish call, or [None] when the call
    raised ([None] stands for Python's [None]). *)
Definition send_notification (message topic_arn : string)
  : Eff (option publish_response) :=
  try_except
    (response <- request (ESnsPublish topic_arn message None)
                   (fun t => sns_publish svc t topic_arn message None) ;;
     log_event (Notification_sent_to topic_arn message) "info" ;;
     ret (Some response))
    (fun e =>
       log_event (Error_sending_notification (exc_str e)) "error" ;;
       ret None).

(** The suite of the [for] of [monitor_system_health].  The subscript
    [alarm['AlarmActions'][0]] is evaluated before the call. *)
Definition monitor_system_health_iter (alarm : metric_alarm) : Eff unit :=
  let message := "Alarm " ++ AlarmName alarm ++ " triggered" in
  target <- lift (index0 (AlarmActions alarm)) ;;
  send_notification message target ;;
  ret tt.

Definition monitor_system_health : Eff unit :=
  response <- request (ECloudWatchDescribeAlarms "ALARM")
                (fun t => cloudwatch_describe_alarms svc t "ALARM") ;;
  for_in (MetricAlarms response) monitor_system_health_iter.

Definition audit_query : string :=
  "fields @timestamp, @message | filter eventName like /ConsoleLogin/ and errorCode like /Failure/".

(** [int((datetime.datetime.now() - datetime.timedelta(days=1)).timestamp())]:
    the clock is read, one day is taken off the local wall-clock time, and
    the result is converted to a timestamp.  The value is the answer of an
    oracle of its own: it is not the timestamp of the reading minus 86400
    (the two differ by 82800 or 90000 on a day on which the local clock is
    set forward or back). *)
Definition day_ago_timestamp : Eff Z :=
  request EDatetimeNow (fun t => Return (datetime_day_ago_timestamp svc t)).

(** [int(datetime.datetime.now().timestamp())]. *)
Definition now_timestamp : Eff Z :=
  request EDatetimeNow (fun t => Return (datetime_now_timestamp svc t)).

(** The suite of the [try] of [audit_system_access].  The clock is read
    twice, once for each end of the window. *)
Definition audit_system_access_try : Eff unit :=
  let query := audit_query in
  start <- day_ago_timestamp ;;
  stop <- now_timestamp ;;
  start_query_response <-
    request (ELogsStartQuery "/aws/lambda/dicom-handler" start stop query)
      (fun t => logs_start_query svc t "/aws/lambda/dicom-handler"
                                 start stop query) ;;
  let query_id := queryId start_query_response in
  response <- request (ELogsGetQueryResults query_id)
                (fun t => logs_get_query_results svc t query_id) ;;
  for_in (results response) (fun result =>
    log_event (Unusual_access_pattern_detected result) "warning").

(** The method has no [return] statement: on every path that returns it
    returns Python's [None], modelled by [None]; [Some l] would be a
    returned sequence [l] of findings. *)
Definition audit_system_access : Eff (option (list query_result)) :=
  try_except
    audit_system_access_try
    (fun e =>
       log_event (Error_auditing_system_access (exc_str e)) "error") ;;
  ret None.

(** Returns the response of the invocation, or [None] when it raised. *)
Definition auto_resolve_issues (function_name payload : string)
  : Eff (option invoke_response) :=
  try_except
    (response <- request (ELambdaInvoke function_name "Event" payload)
                   (fun t => lambda_invoke svc t function_name "Event"
                                           payload) ;;
     log_event (Invoked_Lambda_function function_name) "info" ;;
     ret (Some response))
    (fun e =>
       log_event (Error_invoking_Lambda_function (exc_str e)) "error" ;;
       ret None).

End SupportSystem.
End MedicalDeviceSupportSystem.

(* ------------------------------------------------------------------ *)
(** ** Reading a trace *)

Module Observe.

(** The outcome of one asset, as the engine reports it. *)
Inductive status : Type :=
| succeeded
| skipped
| failed (error : string).

(** The record that closes the processing of one asset: [info] "Processing
    complete", [warning] "File already processed" or [error] "Failed to
    process". *)
Definition asset_result (ev : event) : option (pyval * status) :=
  match ev with
  | ELog INFO (Processing_complete_for file) => Some (file, succeeded)
  | ELog WARNING (File_already_processed file) => Some (file, skipped)
  | ELog ERROR (Failed_to_process file str_e) => Some (file, failed str_e)
  | _ => None
  end.

(** The per-asset results reported in a trace, in order. *)
Fixpoint asset_results (t : trace) : list (pyval * status) :=
  match t with
  | [] => []
  | ev :: t' =>
      match asset_result ev with
      | Some r => r :: asset_results t'
      | None => asset_results t'
      end
  end.

(** A record written by a transformation stage. *)
Definition is_stage_event (ev : event) : bool :=
  match ev with
  | ELog _ (Applying_operation _ _) => true
  | ELog _ (Condition_met _ _ _) => true
  | ELog _ (Skipping _ _ _) => true
  | _ => false
  end.

Definition is_publish (ev : event) : bool :=
  match ev with ESnsPublish _ _ _ => true | _ => false end.

Definition is_enter (m : method) (ev : event) : bool :=
  match ev, m with
  | EEnter M_process_images, M_process_images => true
  | EEnter M_notify_completion, M_notify_completion => true
  | _, _ => false
  end.

(** Entering the Engine or the Notifier, or a publish request. *)
Definition is_call (ev : event) : bool :=
  match ev with
  | EEnter _ => true
  | ESnsPublish _ _ _ => true
  | _ => false
  end.

(** A trace with none of them. *)
Definition quiet (t : trace) : bool := forallb (fun ev => negb (is_call ev)) t.

(** The publish requests of a trace, as (target, message) pairs. *)
Fixpoint publishes (t : trace) : list (string * string) :=
  match t with
  | [] => []
  | ESnsPublish topic message _ :: t' => (topic, message) :: publishes t'
  | _ :: t' => publishes t'
  end.

(** A finding reported by the audit scan. *)
Definition is_finding (ev : event) : bool :=
  match ev with
  | ELog WARNING (Unusual_access_pattern_detected _) => true
  | _ => false
  end.

Definition count (p : event -> bool) (t : trace) : nat :=
  length (filter p t).

(** The events a computation adds to the trace it starts from. *)
Definition emitted {A : Type} (c : Eff A) (t : trace) : trace :=
  skipn (length t) (fst (c t)).

Definition result {A : Type} (c : Eff A) (t : trace) : outcome A :=
  snd (c t).

End Observe.
Import Observe.

(* ------------------------------------------------------------------ *)
(** ** Concrete collaborators for the examples *)

Module Scenario.

Definition ClientError (msg : string) : pyexc := mk_exc "ClientError" msg true.

(** Every service answers; the bucket holds the three keys of the example
    scenario and one object that is not a DICOM file. *)
Definition healthy : services := {|
  s3_list_objects_v2 := fun _ _ =>
    Return {| Contents := Some [ {| Key := "a.dcm" |}; {| Key := "notes.txt" |};
                                 {| Key := "b.dcm" |};
                                 {| Key := "c_processed.dcm" |} ] |};
  sns_publish := fun _ _ _ _ => Return {| MessageId := "m-1" |};
  cloudwatch_describe_alarms := fun _ _ =>
    Return {| MetricAlarms :=
      [ {| AlarmName := "HighCPUUtilization";
           AlarmActions := ["arn:aws:sns:us-west-2:123456789012:alert-topic";
                            "arn:aws:sns:us-west-2:123456789012:pager"] |};
        {| AlarmName := "DiskFull";
           AlarmActions := ["arn:aws:sns:us-west-2:123456789012:ops"] |} ] |};
  lambda_invoke := fun _ _ _ _ => Return {| StatusCode := 202 |};
  logs_start_query := fun _ _ _ _ _ => Return {| queryId := "q-1" |};
  logs_get_query_results := fun _ _ => Return {| results := [] |};
  datetime_day_ago_timestamp :=
    fun t => (1699913600 + Z.of_nat (length t))%Z;
  datetime_now_timestamp := fun t => (1700000000 + Z.of_nat (length t))%Z
|}.

(** As [healthy], with every collaborator call failing. *)
Definition unavailable : services := {|
  s3_list_objects_v2 := fun _ _ => Raise (ClientError "ServiceUnavailable");
  sns_publish := fun _ _ _ _ => Raise (ClientError "ServiceUnavailable");
  cloudwatch_describe_alarms := fun _ _ =>
    Raise (ClientError "ServiceUnavailable");
  lambda_invoke := fun _ _ _ _ => Raise (ClientError "ServiceUnavailable");
  logs_start_query := fun _ _ _ _ _ =>
    Raise (ClientError "ServiceUnavailable");
  logs_get_query_results := fun _ _ => Raise (ClientError "ServiceUnavailable");
  datetime_day_ago_timestamp := fun _ => 1699913600%Z;
  datetime_now_timestamp := fun _ => 1700000000%Z
|}.

(** As [healthy], with a bucket of one's choice. *)
Definition with_bucket (keys : list string) : services := {|
  s3_list_objects_v2 := fun _ _ =>
    Return {| Contents := Some (map (fun k => {| Key := k |}) keys) |};
  sns_publish := sns_publish healthy;
  cloudwatch_describe_alarms := cloudwatch_describe_alarms healthy;
  lambda_invoke := lambda_invoke healthy;
  logs_start_query := logs_start_query healthy;
  logs_get_query_results := logs_get_query_results healthy;
  datetime_day_ago_timestamp := datetime_day_ago_timestamp healthy;
  datetime_now_timestamp := datetime_now_timestamp healthy
|}.

(** As [healthy], with the alarms in ALARM state of one's choice. *)
Definition with_alarms (alarms : list metric_alarm) : services := {|
  s3_list_objects_v2 := s3_list_objects_v2 healthy;
  sns_publish := sns_publish healthy;
  cloudwatch_describe_alarms := fun _ _ =>
    Return {| MetricAlarms := alarms |};
  lambda_invoke := lambda_invoke healthy;
  logs_start_query := logs_start_query healthy;
  logs_get_query_results := logs_get_query_results healthy;
  datetime_day_ago_timestamp := datetime_day_ago_timestamp healthy;
  datetime_now_timestamp := datetime_now_timestamp healthy
|}.

(** Two alarms in ALARM state, the first without any action. *)
Definition alarms_one_without_action : list metric_alarm :=
  [ {| AlarmName := "LegacyProbe"; AlarmActions := [] |};
    {| AlarmName := "DiskFull";
       AlarmActions := ["arn:aws:sns:us-west-2:123456789012:ops"] |} ].

Definition bucket : string := "my-dicom-bucket".
Definition topic : string := "arn:aws:sns:us-east-1:123456789012:MyTopic".

End Scenario.

Import DICOMPipelineManager MedicalDeviceSupportSystem.

(* ------------------------------------------------------------------ *)
(** ** Summaries of a run, in which the statements are written

    Each is related to the code by a lemma below: [process_images_run] for
    the engine, [notify_completion_run] for the notifier, [sweep_loop_run]
    for the health monitor. *)

Module Summary.

(** The suffix appended to the key of a processed file (line 38). *)
Definition processed_marker : string := "_processed".

(** The outcome of an asset, computed from the asset alone: the [in] test,
    then, past the loops, the concatenation. *)
Definition asset_status (file : pyval) : status :=
  match py_in "processed" file with
  | Raise e => failed (exc_str e)
  | Return true => skipped
  | Return false =>
      match py_add_str file "_processed" with
      | Return _ => succeeded
      | Raise e => failed (exc_str e)
      end
  end.

(** What an asset contributes to [processed_files]. *)
Definition asset_output (file : pyval) : list string :=
  match file with
  | PyStr s => if str_contains "processed" s then [] else [s ++ "_processed"]
  | _ => []
  end.

(** The records of the twenty (stage, sub-operation) steps, for one file. *)
Definition stage_events (file : pyval) : trace :=
  emitted (apply_operations file) [].

(** Everything one iteration of the engine writes for one file. *)
Definition asset_events (file : pyval) : trace :=
  emitted (process_images_iter file []) [].

(** The notification the sweep sends for an alarm that has an action: the
    first action and the message. *)
Definition alarm_notification (alarm : metric_alarm) : string * string :=
  (hd EmptyString (AlarmActions alarm),
   "Alarm " ++ AlarmName alarm ++ " triggered").

(** The message of [notify_completion] for a list of output keys. *)
Definition completion_message (processed_files : list string) : string :=
  "Processing completed for files: " ++ join ", " processed_files.

(** The source keys of the assets reported as succeeded. *)
Fixpoint succeeded_keys (rs : list (pyval * status)) : list pyval :=
  match rs with
  | [] => []
  | (file, succeeded) :: rs' => file :: succeeded_keys rs'
  | _ :: rs' => succeeded_keys rs'
  end.

(** [file + '_processed'] for each file of a list, dropping the files for
    which the sum is not defined. *)
Fixpoint output_keys (files : list pyval) : list string :=
  match files with
  | [] => []
  | file :: files' =>
      match py_add_str file "_processed" with
      | Return k => k :: output_keys files'
      | Raise _ => output_keys files'
      end
  end.

End Summary.
Import Summary.

(* ------------------------------------------------------------------ *)
(** ** Further readers of a trace and further collaborators *)

Module Probe.

(** The record of an asset whose processing raised. *)
Definition is_failed_record (ev : event) : bool :=
  match ev with
  | ELog ERROR (Failed_to_process _ _) => true
  | _ => false
  end.

(** The record the notifier writes once its request is acknowledged. *)
Definition is_notification_sent (ev : event) : bool :=
  match ev with
  | ELog INFO Notification_sent_for_processed_files => true
  | _ => false
  end.

Definition is_start_query (ev : event) : bool :=
  match ev with ELogsStartQuery _ _ _ _ => true | _ => false end.

Definition is_get_query_results (ev : event) : bool :=
  match ev with ELogsGetQueryResults _ => true | _ => false end.

(** The invocation requests of a trace, as (function, type, payload). *)
Fixpoint invocations (t : trace) : list (string * string * string) :=
  match t with
  | [] => []
  | ELambdaInvoke function_name invocation_type payload :: t' =>
      (function_name, invocation_type, payload) :: invocations t'
  | _ :: t' => invocations t'
  end.

(** The record the scan writes for one row of the answer. *)
Definition finding_record (row : query_result) : event :=
  ELog WARNING (Unusual_access_pattern_detected row).

(** The rows reported as findings in a trace, in order. *)
Fixpoint findings (t : trace) : list query_result :=
  match t with
  | [] => []
  | ELog WARNING (Unusual_access_pattern_detected row) :: t' =>
      row :: findings t'
  | _ :: t' => findings t'
  end.

(** The keys the engine turns into output keys: the [str] keys without
    ["processed"]. *)
Definition unprocessed (keys : list string) : list string :=
  filter (fun key => negb (str_contains "processed" key)) keys.

(** The keys the lister keeps. *)
Definition dicom_keys (contents : list s3_object) : list string :=
  filter (fun key => endswith key ".dcm") (map Key contents).

Definition object_of_key (key : string) : s3_object := {| Key := key |}.

Definition KeyboardInterrupt : pyexc :=
  mk_exc "KeyboardInterrupt" EmptyString false.

(** As [Scenario.healthy], with a bucket that holds no object: the answer
    of the listing has no [Contents]. *)
Definition empty_bucket : services := {|
  s3_list_objects_v2 := fun _ _ => Return {| Contents := None |};
  sns_publish := sns_publish Scenario.healthy;
  cloudwatch_describe_alarms := cloudwatch_describe_alarms Scenario.healthy;
  lambda_invoke := lambda_invoke Scenario.healthy;
  logs_start_query := logs_start_query Scenario.healthy;
  logs_get_query_results := logs_get_query_results Scenario.healthy;
  datetime_day_ago_timestamp := datetime_day_ago_timestamp Scenario.healthy;
  datetime_now_timestamp := datetime_now_timestamp Scenario.healthy
|}.

(** As [Scenario.healthy], with every publish request refused. *)
Definition publish_down : services := {|
  s3_list_objects_v2 := s3_list_objects_v2 Scenario.healthy;
  sns_publish := fun _ _ _ _ => Raise (Scenario.ClientError "AuthorizationError");
  cloudwatch_describe_alarms := cloudwatch_describe_alarms Scenario.healthy;
  lambda_invoke := lambda_invoke Scenario.healthy;
  logs_start_query := logs_start_query Scenario.healthy;
  logs_get_query_results := logs_get_query_results Scenario.healthy;
  datetime_day_ago_timestamp := datetime_day_ago_timestamp Scenario.healthy;
  datetime_now_timestamp := datetime_now_timestamp Scenario.healthy
|}.

(** As [Scenario.healthy], with the operator interrupting every call to
    Lambda and to the log service. *)
Definition interrupted : services := {|
  s3_list_objects_v2 := s3_list_objects_v2 Scenario.healthy;
  sns_publish := sns_publish Scenario.healthy;
  cloudwatch_describe_alarms := cloudwatch_describe_alarms Scenario.healthy;
  lambda_invoke := fun _ _ _ _ => Raise KeyboardInterrupt;
  logs_start_query := fun _ _ _ _ _ => Raise KeyboardInterrupt;
  logs_get_query_results := logs_get_query_results Scenario.healthy;
  datetime_day_ago_timestamp := datetime_day_ago_timestamp Scenario.healthy;
  datetime_now_timestamp := datetime_now_timestamp Scenario.healthy
|}.

(** The alarms that [Scenario.healthy] reports in ALARM state. *)
Definition healthy_alarms : list metric_alarm :=
  [ {| AlarmName := "HighCPUUtilization";
       AlarmActions := ["arn:aws:sns:us-west-2:123456789012:alert-topic";
                        "arn:aws:sns:us-west-2:123456789012:pager"] |};
    {| AlarmName := "DiskFull";
       AlarmActions := ["arn:aws:sns:us-west-2:123456789012:ops"] |} ].

(** Two rows of failed console logins. *)
Definition two_rows : list query_result :=
  [ [("@timestamp", "2023-11-14 10:02:11.000");
     ("@message", "ConsoleLogin Failure user=alice")];
    [("@timestamp", "2023-11-14 10:05:40.000");
     ("@message", "ConsoleLogin Failure user=bob")] ].

(** As [Scenario.healthy], with a log service that answers [two_rows]. *)
Definition with_findings : services := {|
  s3_list_objects_v2 := s3_list_objects_v2 Scenario.healthy;
  sns_publish := sns_publish Scenario.healthy;
  cloudwatch_describe_alarms := cloudwatch_describe_alarms Scenario.healthy;
  lambda_invoke := lambda_invoke Scenario.healthy;
  logs_start_query := logs_start_query Scenario.healthy;
  logs_get_query_results := fun _ _ => Return {| results := two_rows |};
  datetime_day_ago_timestamp := datetime_day_ago_timestamp Scenario.healthy;
  datetime_now_timestamp := datetime_now_timestamp Scenario.healthy
|}.

End Probe.
Import Probe.

(* ------------------------------------------------------------------ *)
(** ** Lemmas on traces *)

#[local] Open Scope list_scope.

Lemma emitted_eq {A : Type} (c : Eff A) (t evs : trace) (r : outcome A) :
  c t = ((t ++ evs)%list, r) -> emitted c t = evs.
Proof.
  intros H. unfold emitted. rewrite H.
  change (fst ((t ++ evs)%list, r)) with (t ++ evs)%list.
  clear H. induction t as [|x t IH]; [reflexivity | exact IH].
Qed.

Lemma result_eq {A : Type} (c : Eff A) (t t' : trace) (r : outcome A) :
  c t = (t', r) -> result c t = r.
Proof. intros H. unfold result. now rewrite H. Qed.

Lemma asset_results_app (t1 t2 : trace) :
  asset_results (t1 ++ t2) = (asset_results t1 ++ asset_results t2)%list.
Proof.
  induction t1 as [|ev t1 IH]; simpl; auto.
  destruct (asset_result ev); simpl; now rewrite IH.
Qed.

Lemma publishes_app (t1 t2 : trace) :
  publishes (t1 ++ t2) = (publishes t1 ++ publishes t2)%list.
Proof.
  induction t1 as [|ev t1 IH]; simpl; auto.
  destruct ev; simpl; now rewrite ?IH.
Qed.

Lemma count_app (p : event -> bool) (t1 t2 : trace) :
  count p (t1 ++ t2) = count p t1 + count p t2.
Proof. unfold count. now rewrite filter_app, length_app. Qed.

(* ------------------------------------------------------------------ *)
(** ** The engine, one asset at a time *)

Lemma apply_operations_run (file : pyval) (t : trace) :
  apply_operations file t = ((t ++ stage_events file)%list, Return tt).
Proof.
  unfold stage_events, emitted. cbn.
  repeat rewrite <- app_assoc. reflexivity.
Qed.

Lemma stage_events_count (file : pyval) :
  count is_stage_event (stage_events file) = 20.
Proof. reflexivity. Qed.

Lemma stage_events_no_result (file : pyval) :
  asset_results (stage_events file) = [].
Proof. reflexivity. Qed.

Lemma stage_events_no_publish (file : pyval) :
  publishes (stage_events file) = [].
Proof. reflexivity. Qed.

#[local] Opaque apply_operations stage_events.

Lemma asset_events_str (s : string) :
  asset_events (PyStr s) =
  if str_contains "processed" s
  then [ELog WARNING (File_already_processed (PyStr s))]
  else (stage_events (PyStr s)
        ++ [ELog INFO (Processing_complete_for (PyStr s))])%list.
Proof.
  unfold asset_events, emitted, process_images_iter, process_images_try,
    try_except, bind, lift. cbn [py_in].
  destruct (str_contains "processed" s); simpl.
  - reflexivity.
  - rewrite apply_operations_run. reflexivity.
Qed.

Lemma asset_events_list (l : list string) :
  asset_events (PyList l) =
  if list_contains "processed" l
  then [ELog WARNING (File_already_processed (PyList l))]
  else stage_events (PyList l)
       ++ [ELog ERROR (Failed_to_process (PyList l)
             ("can only concatenate list (not " ++ dquote ++ "str" ++ dquote
              ++ ") to list")%string)].
Proof.
  unfold asset_events, emitted, process_images_iter, process_images_try,
    try_except, bind, lift. cbn [py_in].
  destruct (list_contains "processed" l); simpl.
  - reflexivity.
  - rewrite apply_operations_run. reflexivity.
Qed.

(** One iteration extends the trace by the events of its file and the list
    by the output of its file, whatever the trace and the list before: it
    always returns. *)
Lemma process_images_iter_run (file : pyval) (acc : list string) (t : trace) :
  process_images_iter file acc t =
  (t ++ asset_events file, Return (acc ++ asset_output file)).
Proof.
  destruct file as [| b | s | l].
  - cbn. now rewrite app_nil_r.
  - cbn. now rewrite app_nil_r.
  - rewrite asset_events_str.
    unfold process_images_iter, process_images_try, try_except, bind, lift.
    cbn [py_in]. simpl asset_output.
    destruct (str_contains "processed" s); simpl.
    + now rewrite app_nil_r.
    + rewrite apply_operations_run. simpl. now rewrite <- app_assoc.
  - rewrite asset_events_list.
    unfold process_images_iter, process_images_try, try_except, bind, lift.
    cbn [py_in]. simpl asset_output.
    destruct (list_contains "processed" l); simpl.
    + now rewrite app_nil_r.
    + rewrite apply_operations_run. simpl.
      now rewrite <- app_assoc, app_nil_r.
Qed.

Lemma process_images_loop_run (files : list pyval) :
  forall (acc : list string) (t : trace),
    process_images_loop files acc t =
    (t ++ flat_map asset_events files,
     Return (acc ++ flat_map asset_output files)).
Proof.
  induction files as [|file files IH]; intros acc t.
  - cbn. now rewrite !app_nil_r.
  - simpl process_images_loop. unfold bind.
    rewrite process_images_iter_run, IH. simpl flat_map.
    now rewrite <- !app_assoc.
Qed.

Lemma process_images_run (files : list pyval) (t : trace) :
  process_images files t =
  (t ++ EEnter M_process_images :: flat_map asset_events files,
   Return (flat_map asset_output files)).
Proof.
  unfold process_images, bind, enter, emit.
  rewrite process_images_loop_run. now rewrite <- app_assoc.
Qed.

Lemma process_images_emitted (files : list pyval) (t : trace) :
  emitted (process_images files) t =
  EEnter M_process_images :: flat_map asset_events files.
Proof. eapply emitted_eq, process_images_run. Qed.

Lemma process_images_result (files : list pyval) (t : trace) :
  result (process_images files) t = Return (flat_map asset_output files).
Proof. eapply result_eq, process_images_run. Qed.

(** The events of one file hold exactly one result, the status of the
    file. *)
Lemma asset_events_result (file : pyval) :
  asset_results (asset_events file) = [(file, asset_status file)].
Proof.
  destruct file as [| b | s | l]; try reflexivity.
  - rewrite asset_events_str. unfold asset_status. cbn [py_in].
    destruct (str_contains "processed" s); [reflexivity|].
    now rewrite asset_results_app, stage_events_no_result.
  - rewrite asset_events_list. unfold asset_status. cbn [py_in].
    destruct (list_contains "processed" l); [reflexivity|].
    now rewrite asset_results_app, stage_events_no_result.
Qed.

Lemma asset_events_no_publish (file : pyval) :
  publishes (asset_events file) = [].
Proof.
  destruct file as [| b | s | l]; try reflexivity.
  - rewrite asset_events_str.
    destruct (str_contains "processed" s); [reflexivity|].
    now rewrite publishes_app, stage_events_no_publish.
  - rewrite asset_events_list.
    destruct (list_contains "processed" l); [reflexivity|].
    now rewrite publishes_app, stage_events_no_publish.
Qed.

Lemma batch_results (files : list pyval) :
  asset_results (flat_map asset_events files) =
  map (fun file => (file, asset_status file)) files.
Proof.
  induction files as [|file files IH]; [reflexivity|].
  simpl. now rewrite asset_results_app, asset_events_result, IH.
Qed.

Lemma batch_no_publish (files : list pyval) :
  publishes (flat_map asset_events files) = [].
Proof.
  induction files as [|file files IH]; [reflexivity|].
  simpl. now rewrite publishes_app, asset_events_no_publish, IH.
Qed.

(** An asset contributes an output key exactly when it succeeds, and then
    the key is [file + '_processed']. *)
Lemma asset_output_status (file : pyval) :
  asset_output file =
  match asset_status file with
  | succeeded => output_keys [file]
  | _ => []
  end.
Proof.
  destruct file as [| b | s | l]; try reflexivity.
  - unfold asset_status. simpl.
    destruct (str_contains "processed" s); reflexivity.
  - unfold asset_status. simpl.
    destruct (list_contains "processed" l); reflexivity.
Qed.

Lemma output_keys_app (l1 l2 : list pyval) :
  output_keys (l1 ++ l2) = output_keys l1 ++ output_keys l2.
Proof.
  induction l1 as [|file l1 IH]; [reflexivity|].
  simpl. destruct (py_add_str file "_processed"); simpl; now rewrite IH.
Qed.

Lemma batch_output (files : list pyval) :
  flat_map asset_output files =
  output_keys
    (succeeded_keys (map (fun file => (file, asset_status file)) files)).
Proof.
  induction files as [|file files IH]; [reflexivity|].
  simpl flat_map. rewrite IH, asset_output_status. simpl map.
  simpl succeeded_keys.
  destruct (asset_status file); try reflexivity.
  symmetry. apply (output_keys_app [file]).
Qed.

Lemma asset_output_length (file : pyval) :
  length (asset_output file) =
  match asset_status file with succeeded => 1 | _ => 0 end.
Proof.
  rewrite asset_output_status.
  destruct file as [| b | s | l]; try reflexivity.
  - unfold asset_status. simpl.
    destruct (str_contains "processed" s); reflexivity.
  - unfold asset_status. simpl.
    destruct (list_contains "processed" l); reflexivity.
Qed.

Lemma succeeded_keys_length (files : list pyval) :
  length (flat_map asset_output files) =
  length (succeeded_keys (map (fun file => (file, asset_status file)) files))
  /\ length (flat_map asset_output files) <= length files.
Proof.
  induction files as [|file files [IH1 IH2]]; [split; reflexivity|].
  simpl flat_map. rewrite length_app, asset_output_length. simpl map.
  simpl succeeded_keys.
  destruct (asset_status file); simpl; split; lia.
Qed.


Lemma prefix_tail (a b : ascii) (s1 s2 : string) :
  String.prefix (String a s1) (String b s2) = true ->
  String.prefix s1 s2 = true.
Proof.
  cbn [String.prefix].
  destruct (Ascii.ascii_dec a b); [auto | discriminate].
Qed.

Lemma str_contains_unfold (needle : string) (c : ascii) (s : string) :
  str_contains needle (String c s) =
  String.prefix needle (String c s) || str_contains needle s.
Proof. reflexivity. Qed.

(** A key that carries ["_processed"] carries ["processed"]. *)
Lemma marker_contains_processed (s : string) :
  str_contains processed_marker s = true -> str_contains "processed" s = true.
Proof.
  induction s as [|c s IH]; [discriminate|].
  rewrite !str_contains_unfold. intros H.
  apply orb_true_iff in H. apply orb_true_iff. right.
  destruct H as [H | H]; [|now apply IH].
  unfold processed_marker in H. apply prefix_tail in H.
  destruct s as [|c' s']; [discriminate|].
  rewrite str_contains_unfold, H. reflexivity.
Qed.

(** The results logged by a batch, and the keys it returns. *)
Lemma process_images_logged (files : list pyval) (t : trace) :
  asset_results (emitted (process_images files) t)
  = map (fun file => (file, asset_status file)) files.
Proof.
  rewrite process_images_emitted. simpl asset_results. apply batch_results.
Qed.

Lemma process_images_returned (files : list pyval) (t : trace) :
  result (process_images files) t
  = Return (output_keys (succeeded_keys
              (asset_results (emitted (process_images files) t)))).
Proof.
  rewrite process_images_logged, process_images_result.
  f_equal. apply batch_output.
Qed.

(** X10: The engine returns on every list of the objects modelled ([str]
    keys, [None], a [bool], a list of [str]): an exception of the loop body
    is caught by the handler, which on these objects cannot raise in its
    turn. *)
Lemma process_images_never_raises (files : list pyval) (t : trace) :
  exists processed_files,
    result (process_images files) t = Return processed_files.
Proof. eexists. apply process_images_result. Qed.

(* ------------------------------------------------------------------ *)
(** ** The Processing Engine: claims C1, C2, C3 *)

(** C1, as stated, fails: of two input assets, one of them already
    processed, the engine returns a sequence of one entry, so the returned
    sequence has no entry for the skipped asset. *)
Lemma C1_returned_sequence_is_shorter :
  result (process_images [PyStr "a.dcm"; PyStr "c.dcm_processed"]) []
  = Return ["a.dcm_processed"]
  /\ length ["a.dcm_processed"]
     <> length [PyStr "a.dcm"; PyStr "c.dcm_processed"].
Proof. split; [reflexivity | discriminate]. Qed.

(** C1, amended: for every input sequence of n assets the engine logs
    exactly n per-asset results, one per input asset and in input order
    (each with the status of its own asset), and it returns, in input
    order, the output keys of the succeeded assets only: the returned
    sequence has as many entries as there are succeeded results, at most n,
    and none for a skipped or failed asset. *)
Theorem C1_one_logged_result_per_asset (files : list pyval) (t : trace) :
  let logged := asset_results (emitted (process_images files) t) in
  logged = map (fun file => (file, asset_status file)) files
  /\ map fst logged = files
  /\ length logged = length files
  /\ result (process_images files) t
     = Return (output_keys (succeeded_keys logged))
  /\ length (output_keys (succeeded_keys logged))
     = length (succeeded_keys logged)
  /\ length (output_keys (succeeded_keys logged)) <= length files.
Proof.
  intros logged.
  pose proof (process_images_returned files t) as Hret. fold logged in Hret.
  assert (Hlogged : logged = map (fun file => (file, asset_status file)) files)
    by apply process_images_logged.
  rewrite Hlogged in *.
  repeat split.
  - rewrite map_map. simpl. apply map_id.
  - apply length_map.
  - exact Hret.
  - rewrite <- batch_output. apply succeeded_keys_length.
  - rewrite <- batch_output. apply succeeded_keys_length.
Qed.



(** C3, as stated, fails: the key ["unprocessed.dcm"] does not carry the
    marker ["_processed"], yet the engine reports it as skipped and runs no
    stage on it. *)
Lemma C3_unmarked_key_is_skipped :
  str_contains processed_marker "unprocessed.dcm" = false
  /\ asset_results (emitted (process_images [PyStr "unprocessed.dcm"]) [])
     = [(PyStr "unprocessed.dcm", skipped)]
  /\ count is_stage_event
       (emitted (process_images [PyStr "unprocessed.dcm"]) []) = 0.
Proof. repeat split. Qed.

(** C3, amended: the test is on the substring ["processed"], which every
    key carrying the marker ["_processed"] contains.  An asset whose key
    contains ["processed"] is reported as skipped and no stage is run on
    it; an asset whose key does not contain it goes through all twenty
    (stage, sub-operation) steps and is reported as succeeded.  In a batch,
    the events of the asset are these, between those of the assets before
    and after it. *)
Theorem C3_skip_on_processed_substring (s : string) (pre post : list pyval)
    (t : trace) :
  (str_contains processed_marker s = true ->
   str_contains "processed" s = true)
  /\ asset_results (asset_events (PyStr s))
     = [(PyStr s, if str_contains "processed" s then skipped else succeeded)]
  /\ count is_stage_event (asset_events (PyStr s))
     = (if str_contains "processed" s then 0 else 20)
  /\ emitted (process_images (pre ++ PyStr s :: post)) t
     = EEnter M_process_images
       :: flat_map asset_events pre ++ asset_events (PyStr s)
          ++ flat_map asset_events post.
Proof.
  split; [apply marker_contains_processed|].
  split; [|split].
  - rewrite asset_events_result. unfold asset_status. simpl.
    destruct (str_contains "processed" s); reflexivity.
  - rewrite asset_events_str.
    destruct (str_contains "processed" s); [reflexivity|].
    now rewrite count_app, stage_events_count.
  - rewrite process_images_emitted, flat_map_app. reflexivity.
Qed.

Lemma C3_skip_on_processed_substring_witness :
  str_contains processed_marker "c.dcm_processed" = true
  /\ str_contains "processed" "c.dcm_processed" = true.
Proof.
  split; [reflexivity|].
  apply (proj1 (C3_skip_on_processed_substring "c.dcm_processed" [] [] [])).
  reflexivity.
Defined.

(* ------------------------------------------------------------------ *)
(** ** Quiet traces *)

Lemma quiet_app (t1 t2 : trace) : quiet (t1 ++ t2) = quiet t1 && quiet t2.
Proof. apply forallb_app. Qed.

Lemma quiet_count_publish (t : trace) :
  quiet t = true -> count is_publish t = 0.
Proof.
  induction t as [|ev t IH]; [reflexivity|].
  simpl. intros H. apply andb_true_iff in H as [Hev Ht].
  unfold count in *. simpl.
  destruct ev; simpl in *; try discriminate; auto.
Qed.

Lemma quiet_count_enter (m : method) (t : trace) :
  quiet t = true -> count (is_enter m) t = 0.
Proof.
  induction t as [|ev t IH]; [reflexivity|].
  simpl. intros H. apply andb_true_iff in H as [Hev Ht].
  unfold count in *. simpl.
  destruct ev; simpl in *; try discriminate; auto.
Qed.

Lemma quiet_publishes (t : trace) : quiet t = true -> publishes t = [].
Proof.
  induction t as [|ev t IH]; [reflexivity|].
  simpl. intros H. apply andb_true_iff in H as [Hev Ht].
  destruct ev; simpl in *; try discriminate; auto.
Qed.

Lemma stage_events_quiet (file : pyval) : quiet (stage_events file) = true.
Proof. reflexivity. Qed.

Lemma asset_events_quiet (file : pyval) : quiet (asset_events file) = true.
Proof.
  destruct file as [| b | s | l]; try reflexivity.
  - rewrite asset_events_str.
    destruct (str_contains "processed" s); [reflexivity|].
    now rewrite quiet_app, stage_events_quiet.
  - rewrite asset_events_list.
    destruct (list_contains "processed" l); [reflexivity|].
    now rewrite quiet_app, stage_events_quiet.
Qed.

Lemma batch_quiet (files : list pyval) :
  quiet (flat_map asset_events files) = true.
Proof.
  induction files as [|file files IH]; [reflexivity|].
  simpl. now rewrite quiet_app, asset_events_quiet, IH.
Qed.

(* ------------------------------------------------------------------ *)
(** ** Lister, Notifier and Orchestrator *)

Section Orchestrator.

Variable svc : services.
Variables bucket topic : string.

(** The lister sends one listing request and logs at most one record. *)
Lemma fetch_dicom_files_quiet (t : trace) :
  exists evs,
    fst (fetch_dicom_files svc bucket t) = t ++ evs /\ quiet evs = true.
Proof.
  unfold fetch_dicom_files, bind, request, lift, getitem_Contents,
    logging_info, emit, ret.
  destruct (s3_list_objects_v2 svc t bucket) as [files | e].
  - destruct (Contents files) as [contents|]; simpl.
    + eexists. rewrite <- app_assoc. split; reflexivity.
    + eexists. split; reflexivity.
  - eexists. split; reflexivity.
Qed.

(** The notifier sends exactly one publish request, with the completion
    message, and logs once the request is acknowledged. *)
Lemma notify_completion_run (processed_files : list string) (t : trace) :
  notify_completion svc topic processed_files t =
  let publish :=
    ESnsPublish topic (completion_message processed_files)
                (Some "DICOM Processing Notification") in
  match sns_publish svc (t ++ [EEnter M_notify_completion]) topic
          (completion_message processed_files)
          (Some "DICOM Processing Notification") with
  | Return _ =>
      (t ++ [EEnter M_notify_completion; publish;
             ELog INFO Notification_sent_for_processed_files], Return tt)
  | Raise e => (t ++ [EEnter M_notify_completion; publish], Raise e)
  end.
Proof.
  cbv [notify_completion bind request enter logging_info emit].
  change ("Processing completed for files: " ++ join ", " processed_files)%string
    with (completion_message processed_files).
  destruct (sns_publish svc _ topic _ _);
    now rewrite <- !app_assoc.
Qed.

Lemma run_pipeline_then_run (files : list pyval) (t : trace) :
  exists tail r,
    run_pipeline_then svc topic files t =
    (t ++ (EEnter M_process_images :: flat_map asset_events files)
       ++ EEnter M_notify_completion
       :: ESnsPublish topic (completion_message (flat_map asset_output files))
            (Some "DICOM Processing Notification")
       :: tail, r)
    /\ quiet tail = true.
Proof.
  unfold run_pipeline_then, bind.
  rewrite process_images_run, notify_completion_run. cbv zeta.
  destruct (sns_publish svc _ topic _ _); eexists; eexists;
    (split; [rewrite <- !app_assoc; reflexivity | reflexivity]).
Qed.

Lemma run_pipeline_then_calls (files : list pyval) (t : trace) :
  let evs := emitted (run_pipeline_then svc topic files) t in
  count (is_enter M_process_images) evs = 1
  /\ count (is_enter M_notify_completion) evs = 1
  /\ count is_publish evs = 1
  /\ publishes evs
     = [(topic, completion_message (flat_map asset_output files))].
Proof.
  destruct (run_pipeline_then_run files t) as (tail & r & Hrun & Hq).
  intros evs. unfold evs. rewrite (emitted_eq _ _ _ _ Hrun).
  pose proof (batch_quiet files) as Hb.
  change (?a :: ?b :: tail) with ([a; b] ++ tail).
  change (EEnter M_process_images :: ?l) with ([EEnter M_process_images] ++ l).
  repeat split.
  - rewrite !count_app, (quiet_count_enter _ _ Hb), (quiet_count_enter _ _ Hq).
    reflexivity.
  - rewrite !count_app, (quiet_count_enter _ _ Hb), (quiet_count_enter _ _ Hq).
    reflexivity.
  - rewrite !count_app, (quiet_count_publish _ Hb), (quiet_count_publish _ Hq).
    reflexivity.
  - rewrite !publishes_app, (quiet_publishes _ Hb), (quiet_publishes _ Hq).
    reflexivity.
Qed.

End Orchestrator.

Lemma no_success_no_output (files : list pyval) :
  (forall file, In file files -> asset_status file <> succeeded) ->
  flat_map asset_output files = [].
Proof.
  induction files as [|file files IH]; [reflexivity|].
  intros H. simpl. rewrite IH by (intros f Hf; apply H; now right).
  rewrite asset_output_status.
  destruct (asset_status file) eqn:Hs; try reflexivity.
  exfalso. apply (H file); [now left | exact Hs].
Qed.

(** Whatever the assets are, when none succeeds the engine followed by
    the notifier publishes once, with an empty list of keys. *)
Lemma run_pipeline_then_without_success (svc : services) (topic : string)
    (files : list pyval) (t : trace) :
  (forall file, In file files -> asset_status file <> succeeded) ->
  publishes (emitted (run_pipeline_then svc topic files) t)
  = [(topic, "Processing completed for files: ")].
Proof.
  intros H.
  destruct (run_pipeline_then_calls svc topic files t) as (_ & _ & _ & Hp).
  rewrite Hp, (no_success_no_output files H). reflexivity.
Qed.

(** What a run does once the lister has returned. *)
Lemma run_pipeline_after_fetch (svc : services) (bucket topic : string)
    (t t1 : trace) (dicom_files : list string) :
  fetch_dicom_files svc bucket t = (t1, Return dicom_files) ->
  exists evs,
    t1 = t ++ evs /\ quiet evs = true
    /\ run_pipeline svc bucket topic t =
       if truthy dicom_files
       then run_pipeline_then svc topic (map PyStr dicom_files) (t ++ evs)
       else (t ++ evs ++ [ELog INFO No_DICOM_files_to_process], Return tt).
Proof.
  intros Hfetch.
  destruct (fetch_dicom_files_quiet svc bucket t) as (evs & Hevs & Hq).
  rewrite Hfetch in Hevs. simpl in Hevs. subst t1.
  exists evs. repeat split; [exact Hq|].
  unfold run_pipeline, bind. rewrite Hfetch.
  destruct dicom_files; simpl; [|reflexivity].
  unfold logging_info, emit. now rewrite <- app_assoc.
Qed.

(** The events of a non-empty run are those of the lister followed by
    those of the engine and the notifier. *)
Lemma run_pipeline_non_empty (svc : services) (bucket topic : string)
    (t t1 : trace) (dicom_files : list string) :
  fetch_dicom_files svc bucket t = (t1, Return dicom_files) ->
  dicom_files <> [] ->
  exists evs,
    quiet evs = true
    /\ emitted (run_pipeline svc bucket topic) t
       = evs ++ emitted (run_pipeline_then svc topic (map PyStr dicom_files))
                        (t ++ evs).
Proof.
  intros Hfetch Hne.
  destruct (run_pipeline_after_fetch svc bucket topic t t1 dicom_files Hfetch)
    as (evs & _ & Hq & Hrun).
  exists evs. split; [exact Hq|].
  destruct dicom_files as [|k ks]; [congruence|]. simpl truthy in Hrun.
  destruct (run_pipeline_then_run svc topic (map PyStr (k :: ks)) (t ++ evs))
    as (tail & r & Hthen & _).
  rewrite (emitted_eq _ _ _ _ Hthen).
  rewrite Hthen, <- app_assoc in Hrun.
  now rewrite (emitted_eq _ _ _ _ Hrun).
Qed.

(* ------------------------------------------------------------------ *)
(** ** The Orchestrator: claims C5, C6, C7, C10 *)

(** C5: in a run whose lister returns the empty list, the run ends normally
    right after the listing, the engine and the notifier are not entered
    and nothing is published; in a run whose lister returns a non-empty
    list, the engine and the notifier are entered exactly once and exactly
    one publish request is sent. *)
Theorem C5_notifier_once_per_non_empty_run (svc : services)
    (bucket topic : string) (t t1 : trace) (dicom_files : list string) :
  fetch_dicom_files svc bucket t = (t1, Return dicom_files) ->
  let run := run_pipeline svc bucket topic in
  match dicom_files with
  | [] =>
      run t = (t1 ++ [ELog INFO No_DICOM_files_to_process], Return tt)
      /\ count (is_enter M_process_images) (emitted run t) = 0
      /\ count (is_enter M_notify_completion) (emitted run t) = 0
      /\ count is_publish (emitted run t) = 0
  | _ :: _ =>
      count (is_enter M_process_images) (emitted run t) = 1
      /\ count (is_enter M_notify_completion) (emitted run t) = 1
      /\ count is_publish (emitted run t) = 1
  end.
Proof.
  intros Hfetch run. destruct dicom_files as [|k ks].
  - destruct (run_pipeline_after_fetch svc bucket topic t t1 [] Hfetch)
      as (evs & -> & Hq & Hrun).
    simpl truthy in Hrun. unfold run.
    rewrite (emitted_eq _ _ _ _ Hrun), Hrun, !count_app.
    rewrite !(quiet_count_enter _ _ Hq), (quiet_count_publish _ Hq).
    rewrite <- app_assoc. repeat split.
  - destruct (run_pipeline_non_empty svc bucket topic t t1 (k :: ks) Hfetch)
      as (evs & Hq & Hrun); [discriminate|].
    unfold run. rewrite Hrun, !count_app.
    rewrite !(quiet_count_enter _ _ Hq), (quiet_count_publish _ Hq).
    destruct (run_pipeline_then_calls svc topic (map PyStr (k :: ks))
                (t ++ evs)) as (H1 & H2 & H3 & _).
    now rewrite H1, H2, H3.
Qed.

Lemma C5_notifier_once_per_non_empty_run_witness :
  (fetch_dicom_files Scenario.healthy Scenario.bucket []
   = ([ES3ListObjectsV2 Scenario.bucket; ELog INFO (Found_DICOM_files 3)],
      Return ["a.dcm"; "b.dcm"; "c_processed.dcm"])
   /\ count is_publish
        (emitted (run_pipeline Scenario.healthy Scenario.bucket Scenario.topic)
                 []) = 1)
  /\ (fetch_dicom_files (Scenario.with_bucket ["notes.txt"]) Scenario.bucket []
      = ([ES3ListObjectsV2 Scenario.bucket; ELog INFO (Found_DICOM_files 0)],
         Return [])
      /\ run_pipeline (Scenario.with_bucket ["notes.txt"]) Scenario.bucket
                      Scenario.topic []
         = ([ES3ListObjectsV2 Scenario.bucket; ELog INFO (Found_DICOM_files 0);
             ELog INFO No_DICOM_files_to_process], Return tt)).
Proof.
  split; (split; [reflexivity|]).
  - apply (C5_notifier_once_per_non_empty_run Scenario.healthy Scenario.bucket
             Scenario.topic []
             [ES3ListObjectsV2 Scenario.bucket; ELog INFO (Found_DICOM_files 3)]
             ["a.dcm"; "b.dcm"; "c_processed.dcm"]).
    reflexivity.
  - apply (C5_notifier_once_per_non_empty_run
             (Scenario.with_bucket ["notes.txt"]) Scenario.bucket
             Scenario.topic []
             [ES3ListObjectsV2 Scenario.bucket; ELog INFO (Found_DICOM_files 0)]
             []).
    reflexivity.
Defined.

(** C6: the engine returns, for the assets it reports as succeeded and in
    their order, the source key followed by the marker ["_processed"].  An
    asset whose stages all complete (all twenty stage records are written)
    and whose key is a [str] is reported as succeeded and contributes
    exactly its key followed by the marker; an object that is not a [str]
    contributes no key even when its stages complete, the concatenation
    raising.  The notifier publishes one message, which lists the keys it
    is given, separated by commas.  For the assets a.dcm, b.dcm,
    c.dcm_processed: the first two succeed, the third is skipped, and the
    message lists a.dcm_processed and b.dcm_processed. *)
Theorem C6_output_keys_and_message (svc : services) (topic : string) :
  (forall (files : list pyval) (t : trace),
      result (process_images files) t
      = Return (output_keys (succeeded_keys
                  (asset_results (emitted (process_images files) t)))))
  /\ (forall file : pyval,
        count is_stage_event (asset_events file) = 20 ->
        match file with
        | PyStr s =>
            asset_results (asset_events file) = [(file, succeeded)]
            /\ asset_output file = [(s ++ processed_marker)%string]
        | _ => asset_output file = []
        end)
  /\ (forall (processed_files : list string) (t : trace),
        publishes (emitted (notify_completion svc topic processed_files) t)
        = [(topic, ("Processing completed for files: "
                    ++ join ", " processed_files)%string)])
  /\ (let files := [PyStr "a.dcm"; PyStr "b.dcm"; PyStr "c.dcm_processed"] in
      asset_results (emitted (process_images files) [])
      = [(PyStr "a.dcm", succeeded); (PyStr "b.dcm", succeeded);
         (PyStr "c.dcm_processed", skipped)]
      /\ result (process_images files) []
         = Return ["a.dcm_processed"; "b.dcm_processed"]
      /\ publishes (emitted (run_pipeline_then svc topic files) [])
         = [(topic, "Processing completed for files: a.dcm_processed, b.dcm_processed")]).
Proof.
  split; [|split; [|split]].
  - intros files t. apply process_images_returned.
  - intros file Hstages.
    destruct file as [| b | s | l]; try reflexivity.
    rewrite asset_events_result. unfold asset_status. cbn [py_in].
    rewrite asset_events_str in Hstages. simpl asset_output.
    destruct (str_contains "processed" s); [discriminate Hstages|].
    split; reflexivity.
  - intros processed_files t.
    pose proof (notify_completion_run svc topic processed_files t) as Hrun.
    cbv zeta in Hrun.
    destruct (sns_publish svc _ topic _ _);
      rewrite (emitted_eq _ _ _ _ Hrun); reflexivity.
  - cbv zeta. split; [reflexivity|]. split; [reflexivity|].
    destruct (run_pipeline_then_calls svc topic
                [PyStr "a.dcm"; PyStr "b.dcm"; PyStr "c.dcm_processed"] [])
      as (_ & _ & _ & Hp).
    exact Hp.
Qed.

Lemma C6_output_keys_and_message_witness :
  count is_stage_event (asset_events (PyStr "a.dcm")) = 20
  /\ asset_output (PyStr "a.dcm") = ["a.dcm_processed"].
Proof.
  split; [reflexivity|].
  refine (proj2 (proj1 (proj2 (C6_output_keys_and_message
                                 Scenario.healthy Scenario.topic))
                       (PyStr "a.dcm") _)).
  reflexivity.
Defined.

(** C7: when the listing request fails, the lister raises the error of the
    request without returning any list, and the run raises the same error
    right after the request: the engine and the notifier are not entered
    and nothing is published. *)
Theorem C7_listing_failure_aborts_run (svc : services) (bucket topic : string)
    (t : trace) (e : pyexc) :
  s3_list_objects_v2 svc t bucket = Raise e ->
  let run := run_pipeline svc bucket topic in
  fetch_dicom_files svc bucket t = (t ++ [ES3ListObjectsV2 bucket], Raise e)
  /\ run t = (t ++ [ES3ListObjectsV2 bucket], Raise e)
  /\ count (is_enter M_process_images) (emitted run t) = 0
  /\ count (is_enter M_notify_completion) (emitted run t) = 0
  /\ count is_publish (emitted run t) = 0.
Proof.
  intros Hlist run.
  assert (Hfetch : fetch_dicom_files svc bucket t
                   = (t ++ [ES3ListObjectsV2 bucket], Raise e)).
  { unfold fetch_dicom_files, bind, request. now rewrite Hlist. }
  assert (Hrun : run t = (t ++ [ES3ListObjectsV2 bucket], Raise e)).
  { unfold run, run_pipeline, bind. now rewrite Hfetch. }
  rewrite (emitted_eq _ _ _ _ Hrun). repeat split; assumption.
Qed.

Lemma C7_listing_failure_aborts_run_witness :
  s3_list_objects_v2 Scenario.unavailable [] Scenario.bucket
  = Raise (Scenario.ClientError "ServiceUnavailable")
  /\ run_pipeline Scenario.unavailable Scenario.bucket Scenario.topic []
     = ([ES3ListObjectsV2 Scenario.bucket],
        Raise (Scenario.ClientError "ServiceUnavailable")).
Proof.
  split; [reflexivity|].
  apply (C7_listing_failure_aborts_run Scenario.unavailable Scenario.bucket
           Scenario.topic [] (Scenario.ClientError "ServiceUnavailable")).
  reflexivity.
Defined.

(** C10: in a run whose lister returns a non-empty list of which no asset
    succeeds, the notifier is entered once and exactly one publish request
    is sent, with the message that lists no key. *)
Theorem C10_publish_without_success (svc : services) (bucket topic : string)
    (t t1 : trace) (dicom_files : list string) :
  fetch_dicom_files svc bucket t = (t1, Return dicom_files) ->
  dicom_files <> [] ->
  (forall key, In key dicom_files -> asset_status (PyStr key) <> succeeded) ->
  let run := run_pipeline svc bucket topic in
  publishes (emitted run t)
  = [(topic, ("Processing completed for files: " ++ join ", " [])%string)]
  /\ count is_publish (emitted run t) = 1
  /\ count (is_enter M_notify_completion) (emitted run t) = 1.
Proof.
  intros Hfetch Hne Hnone run.
  destruct (run_pipeline_non_empty svc bucket topic t t1 dicom_files Hfetch Hne)
    as (evs & Hq & Hrun).
  unfold run. rewrite Hrun, publishes_app, !count_app.
  rewrite (quiet_publishes _ Hq), (quiet_count_publish _ Hq),
    (quiet_count_enter _ _ Hq).
  destruct (run_pipeline_then_calls svc topic (map PyStr dicom_files)
              (t ++ evs)) as (_ & H2 & H3 & _).
  rewrite H2, H3. repeat split.
  apply run_pipeline_then_without_success.
  intros file Hin. apply in_map_iff in Hin as (key & <- & Hkey).
  now apply Hnone.
Qed.

Lemma C10_publish_without_success_witness :
  fetch_dicom_files
    (Scenario.with_bucket ["a_processed.dcm"; "readme.md"; "processed/b.dcm"])
    Scenario.bucket []
  = ([ES3ListObjectsV2 Scenario.bucket; ELog INFO (Found_DICOM_files 2)],
     Return ["a_processed.dcm"; "processed/b.dcm"])
  /\ publishes
       (emitted (run_pipeline
                   (Scenario.with_bucket
                      ["a_processed.dcm"; "readme.md"; "processed/b.dcm"])
                   Scenario.bucket Scenario.topic) [])
     = [(Scenario.topic, "Processing completed for files: ")].
Proof.
  split; [reflexivity|].
  apply (C10_publish_without_success
           (Scenario.with_bucket
              ["a_processed.dcm"; "readme.md"; "processed/b.dcm"])
           Scenario.bucket Scenario.topic []
           [ES3ListObjectsV2 Scenario.bucket; ELog INFO (Found_DICOM_files 2)]
           ["a_processed.dcm"; "processed/b.dcm"]).
  - reflexivity.
  - discriminate.
  - intros key [<- | [<- | []]]; discriminate.
Defined.

(* ------------------------------------------------------------------ *)
(** ** The Health Monitor: claim C4 *)

Section Monitor.

Variable svc : services.

Lemma send_notification_run (message topic_arn : string) (t : trace) :
  send_notification svc message topic_arn t =
  match sns_publish svc t topic_arn message None with
  | Return response =>
      (t ++ [ESnsPublish topic_arn message None;
             ELog INFO (Notification_sent_to topic_arn message)],
       Return (Some response))
  | Raise e =>
      if exc_is_Exception e
      then (t ++ [ESnsPublish topic_arn message None;
                  ELog ERROR (Error_sending_notification (exc_str e))],
            Return None)
      else (t ++ [ESnsPublish topic_arn message None], Raise e)
  end.
Proof.
  cbv [send_notification try_except bind request log_event].
  destruct (sns_publish svc t topic_arn message None) as [response | e].
  - simpl. cbv [logging_info emit ret]. now rewrite <- app_assoc.
  - destruct (exc_is_Exception e); [|reflexivity].
    simpl. cbv [logging_error emit ret bind]. now rewrite <- app_assoc.
Qed.

(** The publish requests of the sweep never end in an exception that
    [except Exception] lets through. *)
Hypothesis publish_errors_are_Exceptions :
  forall t topic_arn message e,
    sns_publish svc t topic_arn message None = Raise e ->
    exc_is_Exception e = true.

(** One iteration of the sweep for an alarm that has an action: one publish
    request, to the first action. *)
Lemma sweep_iter_run (alarm : metric_alarm) (t : trace) :
  AlarmActions alarm <> [] ->
  exists evs,
    monitor_system_health_iter svc alarm t = (t ++ evs, Return tt)
    /\ publishes evs = [alarm_notification alarm].
Proof.
  intros Hactions.
  unfold monitor_system_health_iter, alarm_notification.
  destruct (AlarmActions alarm) as [|target others]; [congruence|].
  cbn [index0 hd]. cbv zeta. unfold bind, lift.
  rewrite send_notification_run.
  set (message := ("Alarm " ++ AlarmName alarm ++ " triggered")%string).
  destruct (sns_publish svc t target message None) as [response | e] eqn:Hp.
  - eexists. split; reflexivity.
  - rewrite (publish_errors_are_Exceptions _ _ _ _ Hp).
    eexists. split; reflexivity.
Qed.

(** The loop of the sweep over alarms that all have an action: one publish
    request per alarm, to its first action, in order. *)
Lemma sweep_loop_run (alarms : list metric_alarm) :
  Forall (fun alarm => AlarmActions alarm <> []) alarms ->
  forall t, exists evs,
    for_in alarms (monitor_system_health_iter svc) t = (t ++ evs, Return tt)
    /\ publishes evs = map alarm_notification alarms.
Proof.
  induction 1 as [|alarm alarms Hactions _ IH]; intros t.
  - exists []. simpl. now rewrite app_nil_r.
  - destruct (sweep_iter_run alarm t Hactions) as (evs1 & Hiter & Hpub1).
    destruct (IH (t ++ evs1)) as (evs & Hloop & Hpub).
    exists (evs1 ++ evs). cbn [for_in map]. unfold bind.
    rewrite Hiter, Hloop, publishes_app, Hpub1, Hpub, <- app_assoc.
    split; reflexivity.
Qed.

(** X12: When every alarm of the answer has an action, the sweep sends exactly
    one notification per alarm, to the first action of the alarm, and none
    when the answer holds no alarm. *)
Lemma monitor_system_health_with_actions (t : trace)
    (response : describe_alarms_response) :
  cloudwatch_describe_alarms svc t "ALARM" = Return response ->
  Forall (fun alarm => AlarmActions alarm <> []) (MetricAlarms response) ->
  result (monitor_system_health svc) t = Return tt
  /\ publishes (emitted (monitor_system_health svc) t)
     = map alarm_notification (MetricAlarms response).
Proof.
  intros Hdescribe Hactions.
  destruct (sweep_loop_run _ Hactions (t ++ [ECloudWatchDescribeAlarms "ALARM"]))
    as (evs & Hloop & Hpub).
  assert (Hrun : monitor_system_health svc t
                 = (t ++ ECloudWatchDescribeAlarms "ALARM" :: evs, Return tt)).
  { unfold monitor_system_health. unfold bind at 1. unfold request.
    rewrite Hdescribe, Hloop. now rewrite <- app_assoc. }
  rewrite (emitted_eq _ _ _ _ Hrun), (result_eq _ _ _ _ Hrun).
  split; [reflexivity | exact Hpub].
Qed.

(** X13: At the first alarm without action the subscript raises [IndexError]
    and the sweep ends there: the alarms before it have been notified, the
    alarms after it are not. *)
Lemma monitor_system_health_without_action (t : trace)
    (before after : list metric_alarm) (alarm : metric_alarm) :
  cloudwatch_describe_alarms svc t "ALARM"
  = Return {| MetricAlarms := before ++ alarm :: after |} ->
  Forall (fun alarm => AlarmActions alarm <> []) before ->
  AlarmActions alarm = [] ->
  result (monitor_system_health svc) t
  = Raise (IndexError "list index out of range")
  /\ publishes (emitted (monitor_system_health svc) t)
     = map alarm_notification before.
Proof.
  intros Hdescribe Hbefore Hnone.
  assert (Hloop : forall t0, exists evs,
             for_in (before ++ alarm :: after)
                    (monitor_system_health_iter svc) t0
             = (t0 ++ evs, Raise (IndexError "list index out of range"))
             /\ publishes evs = map alarm_notification before).
  { clear Hdescribe t.
    induction Hbefore as [|a before Ha _ IH]; intros t0.
    - exists []. cbn [app for_in map]. unfold bind.
      unfold monitor_system_health_iter at 1. rewrite Hnone.
      cbn. now rewrite app_nil_r.
    - destruct (sweep_iter_run a t0 Ha) as (evs1 & Hiter & Hpub1).
      destruct (IH (t0 ++ evs1)) as (evs & Hrest & Hpub).
      exists (evs1 ++ evs). cbn [app for_in map]. unfold bind.
      rewrite Hiter, Hrest, publishes_app, Hpub1, Hpub, <- app_assoc.
      split; reflexivity. }
  destruct (Hloop (t ++ [ECloudWatchDescribeAlarms "ALARM"]))
    as (evs & Hfor & Hpub).
  assert (Hrun : monitor_system_health svc t
                 = (t ++ ECloudWatchDescribeAlarms "ALARM" :: evs,
                    Raise (IndexError "list index out of range"))).
  { unfold monitor_system_health. unfold bind at 1. unfold request.
    rewrite Hdescribe. cbn [MetricAlarms]. rewrite Hfor.
    now rewrite <- app_assoc. }
  rewrite (emitted_eq _ _ _ _ Hrun), (result_eq _ _ _ _ Hrun).
  split; [reflexivity | exact Hpub].
Qed.

End Monitor.

(** C4 fails on an alarm without action: with two alarms in ALARM state,
    the first of which has no action, the sweep raises [IndexError] at the
    first alarm and sends no notification at all, not even to the action of
    the second alarm. *)
Theorem C4_alarm_without_action_aborts_sweep :
  monitor_system_health
    (Scenario.with_alarms Scenario.alarms_one_without_action) []
  = ([ECloudWatchDescribeAlarms "ALARM"],
     Raise (IndexError "list index out of range"))
  /\ publishes
       (emitted (monitor_system_health
                   (Scenario.with_alarms Scenario.alarms_one_without_action))
                []) = [].
Proof. split; reflexivity. Qed.

(* ------------------------------------------------------------------ *)
(** ** The Audit Scanner and the Auto-Remediator: claims C8, C9 *)

Lemma count_finding_snoc (t : trace) (ev : event) :
  count is_finding (t ++ [ev]) = count is_finding t + count is_finding [ev].
Proof. apply count_app. Qed.

(** When the suite of the scan raises, it has logged no finding: only the
    two requests can raise, and both come before the loop over the
    results. *)
Lemma audit_try_raises (svc : services) (t t' : trace) (e : pyexc) :
  audit_system_access_try svc t = (t', Raise e) ->
  exists evs, t' = t ++ evs /\ count is_finding evs = 0.
Proof.
  cbv [audit_system_access_try day_ago_timestamp now_timestamp bind request].
  destruct (logs_start_query svc _ _ _ _ _) as [start_query_response | e1].
  - destruct (logs_get_query_results svc _ _) as [response | e2].
    + assert (Hloop : forall t0,
                 snd (for_in (results response)
                        (fun result =>
                           log_event (Unusual_access_pattern_detected result)
                                     "warning") t0) = Return tt).
      { induction (results response) as [|r rs IH]; intros t0;
          [reflexivity|].
        cbn [for_in]. unfold bind. cbn. apply IH. }
      intros H. specialize (Hloop
        (((((t ++ [EDatetimeNow]) ++ [EDatetimeNow]) ++
           [ELogsStartQuery "/aws/lambda/dicom-handler"
              (datetime_day_ago_timestamp svc t)
              (datetime_now_timestamp svc (t ++ [EDatetimeNow]))
              audit_query]) ++
          [ELogsGetQueryResults (queryId start_query_response)]))).
      rewrite H in Hloop. discriminate.
    + intros H. injection H as <- _.
      eexists. rewrite <- !app_assoc. split; reflexivity.
  - intros H. injection H as <- _.
    eexists. rewrite <- !app_assoc. split; reflexivity.
Qed.

(** C8, as stated, fails: a scan whose query submission fails returns
    [None], not an empty sequence of findings. *)
Lemma C8_failed_scan_returns_no_sequence :
  result (audit_system_access Scenario.unavailable) [] = Return None
  /\ result (audit_system_access Scenario.unavailable) [] <> Return (Some []).
Proof. split; [reflexivity | discriminate]. Qed.

(** C8, amended: when the suite of the scan raises an exception, whether at
    the submission of the query or at the retrieval of the results, the
    scanner catches it, logs it at error severity, has reported no finding,
    and returns [None]; a scan whose suite completes, with or without
    findings, returns [None] as well, so that the return value does not
    tell a failed scan from a scan without findings. *)
Theorem C8_failed_scan_returns_None (svc : services) (t t' : trace)
    (e : pyexc) :
  audit_system_access_try svc t = (t', Raise e) ->
  exc_is_Exception e = true ->
  audit_system_access svc t
  = (t' ++ [ELog ERROR (Error_auditing_system_access (exc_str e))],
     Return None)
  /\ count is_finding (emitted (audit_system_access svc) t) = 0
  /\ (forall (svc0 : services) (t0 t0' : trace),
        audit_system_access_try svc0 t0 = (t0', Return tt) ->
        audit_system_access svc0 t0 = (t0', Return None)).
Proof.
  intros Htry Hexc.
  assert (Hrun : audit_system_access svc t
                 = (t' ++ [ELog ERROR
                             (Error_auditing_system_access (exc_str e))],
                    Return None)).
  { unfold audit_system_access, bind, try_except. rewrite Htry, Hexc.
    reflexivity. }
  split; [exact Hrun|]. split.
  - destruct (audit_try_raises svc t t' e Htry) as (evs & -> & Hcount).
    rewrite <- app_assoc in Hrun. rewrite (emitted_eq _ _ _ _ Hrun).
    rewrite count_finding_snoc, Hcount. reflexivity.
  - intros svc0 t0 t0' Hok.
    unfold audit_system_access, bind, try_except. now rewrite Hok.
Qed.

Lemma C8_failed_scan_returns_None_witness :
  audit_system_access_try Scenario.unavailable []
  = ([EDatetimeNow; EDatetimeNow;
      ELogsStartQuery "/aws/lambda/dicom-handler" 1699913600 1700000000
                      audit_query],
     Raise (Scenario.ClientError "ServiceUnavailable"))
  /\ exc_is_Exception (Scenario.ClientError "ServiceUnavailable") = true
  /\ audit_system_access Scenario.unavailable []
     = ([EDatetimeNow; EDatetimeNow;
         ELogsStartQuery "/aws/lambda/dicom-handler" 1699913600 1700000000
                         audit_query;
         ELog ERROR (Error_auditing_system_access "ServiceUnavailable")],
        Return None).
Proof.
  split; [reflexivity|]. split; [reflexivity|].
  refine (proj1 (C8_failed_scan_returns_None Scenario.unavailable []
           [EDatetimeNow; EDatetimeNow;
            ELogsStartQuery "/aws/lambda/dicom-handler" 1699913600 1700000000
                            audit_query]
           (Scenario.ClientError "ServiceUnavailable") _ _));
    reflexivity.
Defined.

(** C9: when the invocation request fails, the remediator catches the
    exception, logs it at error severity and returns [None] to its caller:
    nothing is raised past [auto_resolve_issues]. *)
Theorem C9_invoke_failure_is_swallowed (svc : services)
    (function_name payload : string) (t : trace) (e : pyexc) :
  lambda_invoke svc t function_name "Event" payload = Raise e ->
  exc_is_Exception e = true ->
  auto_resolve_issues svc function_name payload t
  = (t ++ [ELambdaInvoke function_name "Event" payload;
           ELog ERROR (Error_invoking_Lambda_function (exc_str e))],
     Return None).
Proof.
  intros Hinvoke Hexc.
  cbv [auto_resolve_issues try_except bind request].
  rewrite Hinvoke, Hexc. cbn. now rewrite <- app_assoc.
Qed.

Lemma C9_invoke_failure_is_swallowed_witness :
  lambda_invoke Scenario.unavailable [] "auto-resolution-handler" "Event"
                "{}"
  = Raise (Scenario.ClientError "ServiceUnavailable")
  /\ exc_is_Exception (Scenario.ClientError "ServiceUnavailable") = true
  /\ auto_resolve_issues Scenario.unavailable "auto-resolution-handler" "{}" []
     = ([ELambdaInvoke "auto-resolution-handler" "Event" "{}";
         ELog ERROR (Error_invoking_Lambda_function "ServiceUnavailable")],
        Return None).
Proof.
  split; [reflexivity|]. split; [reflexivity|].
  apply (C9_invoke_failure_is_swallowed Scenario.unavailable
           "auto-resolution-handler" "{}" []
           (Scenario.ClientError "ServiceUnavailable")); reflexivity.
Defined.

(** Whatever the services do, the remediator never ends in an exception of
    class [Exception]. *)
Lemma auto_resolve_issues_raises_no_Exception (svc : services)
    (function_name payload : string) (t : trace) (e : pyexc) :
  result (auto_resolve_issues svc function_name payload) t = Raise e ->
  exc_is_Exception e = false.
Proof.
  cbv [result auto_resolve_issues try_except bind request].
  destruct (lambda_invoke svc t function_name "Event" payload) as [r | e0].
  - cbn. discriminate.
  - destruct (exc_is_Exception e0) eqn:He0; cbn.
    + discriminate.
    + intros H. injection H as <-. exact He0.
Qed.

(* ------------------------------------------------------------------ *)
(** ** The string tests of the lister and of the engine *)

Lemma string_length_append (s1 s2 : string) :
  String.length (s1 ++ s2)%string = String.length s1 + String.length s2.
Proof. induction s1 as [|c s1 IH]; simpl; [reflexivity | now rewrite IH]. Qed.

Lemma substring_all (s : string) : String.substring 0 (String.length s) s = s.
Proof. induction s as [|c s IH]; simpl; [reflexivity | now rewrite IH]. Qed.

Lemma substring_skip (p s : string) (n m : nat) :
  String.substring (String.length p + n) m (p ++ s)%string
  = String.substring n m s.
Proof. induction p as [|c p IH]; simpl; [reflexivity | exact IH]. Qed.

(** A string splits at any offset within it, the second part being the
    substring from there on. *)
Lemma substring_split (n : nat) :
  forall s, n <= String.length s ->
    exists p, s = (p ++ String.substring n (String.length s - n) s)%string.
Proof.
  induction n as [|n IH]; intros s Hn.
  - exists EmptyString. rewrite Nat.sub_0_r, substring_all. reflexivity.
  - destruct s as [|c s]; simpl in Hn; [lia|].
    destruct (IH s) as (p & Hp); [lia|].
    exists (String c p). simpl. now rewrite <- Hp.
Qed.

(** [s.endswith(suffix)] holds exactly of the strings [p + suffix]. *)
Lemma endswith_iff (s suffix : string) :
  endswith s suffix = true <-> exists p, s = (p ++ suffix)%string.
Proof.
  unfold endswith. rewrite andb_true_iff, Nat.leb_le, String.eqb_eq. split.
  - intros [Hlen Hsub].
    destruct (substring_split (String.length s - String.length suffix) s)
      as (p & Hp); [lia|].
    replace (String.length s - (String.length s - String.length suffix))
      with (String.length suffix) in Hp by lia.
    rewrite Hsub in Hp. now exists p.
  - intros (p & ->). rewrite string_length_append. split; [lia|].
    replace (String.length p + String.length suffix - String.length suffix)
      with (String.length p + 0) by lia.
    rewrite substring_skip. apply substring_all.
Qed.

Lemma prefix_iff (needle hay : string) :
  String.prefix needle hay = true <-> exists post, hay = (needle ++ post)%string.
Proof.
  revert hay. induction needle as [|a needle IH]; intros hay.
  - split; [intros _; now exists hay | intros _; now destruct hay].
  - destruct hay as [|b hay].
    + split; [discriminate | intros (post & H); discriminate].
    + cbn [String.prefix]. destruct (Ascii.ascii_dec a b) as [<- | Hab].
      * rewrite IH. split; intros (post & H); exists post.
        -- simpl. now rewrite H.
        -- simpl in H. now injection H.
      * split; [discriminate|]. intros (post & H). simpl in H.
        injection H as H _. congruence.
Qed.

(** [needle in hay] holds exactly of the strings that hold [needle]
    between a part before and a part after. *)
Lemma str_contains_iff (needle hay : string) :
  str_contains needle hay = true
  <-> exists pre post, hay = (pre ++ needle ++ post)%string.
Proof.
  induction hay as [|c hay IH].
  - cbn [str_contains]. rewrite orb_false_r, prefix_iff. split.
    + intros (post & H). now exists EmptyString, post.
    + intros (pre & post & H). destruct pre; [now exists post|discriminate].
  - rewrite str_contains_unfold, orb_true_iff, prefix_iff, IH. split.
    + intros [(post & H) | (pre & post & H)].
      * now exists EmptyString, post.
      * exists (String c pre), post. simpl. now rewrite H.
    + intros (pre & post & H). destruct pre as [|c' pre].
      * left. now exists post.
      * right. simpl in H. injection H as _ H. now exists pre, post.
Qed.

(** An output key holds ["processed"] and does not end with [".dcm"]. *)
Lemma output_key_contains_processed (s : string) :
  str_contains "processed" (s ++ "_processed")%string = true.
Proof.
  induction s as [|c s IH]; [reflexivity|].
  change (String c s ++ "_processed")%string
    with (String c (s ++ "_processed")%string).
  rewrite str_contains_unfold, IH. apply orb_true_r.
Qed.

Lemma output_key_not_dicom (s : string) :
  endswith (s ++ "_processed")%string ".dcm" = false.
Proof.
  unfold endswith. rewrite string_length_append.
  replace (String.length s + String.length "_processed" - String.length ".dcm")
    with (String.length s + 6) by (simpl; lia).
  rewrite substring_skip. simpl. apply andb_false_r.
Qed.

(* ------------------------------------------------------------------ *)
(** ** More on the lister *)

Lemma dicom_keys_map (contents : list s3_object) :
  map Key (filter (fun file => endswith (Key file) ".dcm") contents)
  = dicom_keys contents.
Proof.
  unfold dicom_keys. induction contents as [|file contents IH];
    [reflexivity|].
  simpl. destruct (endswith (Key file) ".dcm"); simpl; now rewrite IH.
Qed.

(** The three ways a listing ends. *)
Lemma fetch_dicom_files_run (svc : services) (bucket : string) (t : trace) :
  fetch_dicom_files svc bucket t =
  match s3_list_objects_v2 svc t bucket with
  | Raise e => (t ++ [ES3ListObjectsV2 bucket], Raise e)
  | Return files =>
      match Contents files with
      | None => (t ++ [ES3ListObjectsV2 bucket], Raise (KeyError "Contents"))
      | Some contents =>
          (t ++ [ES3ListObjectsV2 bucket;
                 ELog INFO (Found_DICOM_files (length (dicom_keys contents)))],
           Return (dicom_keys contents))
      end
  end.
Proof.
  cbv [fetch_dicom_files bind request lift getitem_Contents logging_info emit
       ret].
  destruct (s3_list_objects_v2 svc t bucket) as [files | e]; [|reflexivity].
  destruct (Contents files) as [contents|]; [|reflexivity].
  rewrite dicom_keys_map, <- app_assoc. reflexivity.
Qed.

(** X1: The answer of S3 for a bucket without objects has no [Contents]: the
    lister then raises [KeyError], and so does the run, right after the
    request; "No DICOM files to process" is not logged. *)
Theorem fetch_dicom_files_empty_bucket (svc : services)
    (bucket topic : string) (t : trace) (files : list_objects_v2_response) :
  s3_list_objects_v2 svc t bucket = Return files ->
  Contents files = None ->
  fetch_dicom_files svc bucket t
  = (t ++ [ES3ListObjectsV2 bucket], Raise (KeyError "Contents"))
  /\ run_pipeline svc bucket topic t
     = (t ++ [ES3ListObjectsV2 bucket], Raise (KeyError "Contents")).
Proof.
  intros Hlist Hnone.
  assert (Hfetch : fetch_dicom_files svc bucket t
                   = (t ++ [ES3ListObjectsV2 bucket],
                      Raise (KeyError "Contents"))).
  { rewrite fetch_dicom_files_run, Hlist, Hnone. reflexivity. }
  split; [exact Hfetch|].
  unfold run_pipeline, bind. now rewrite Hfetch.
Qed.

Lemma fetch_dicom_files_empty_bucket_witness :
  s3_list_objects_v2 empty_bucket [] Scenario.bucket
  = Return {| Contents := None |}
  /\ run_pipeline empty_bucket Scenario.bucket Scenario.topic []
     = ([ES3ListObjectsV2 Scenario.bucket], Raise (KeyError "Contents")).
Proof.
  split; [reflexivity|].
  refine (proj2 (fetch_dicom_files_empty_bucket empty_bucket Scenario.bucket
                   Scenario.topic [] {| Contents := None |} _ _));
    reflexivity.
Defined.

(** X2: When the listing answers with objects, the lister returns the keys of
    the form [p + ".dcm"], all of them, in the order of the listing, and
    logs their number. *)
Theorem fetch_dicom_files_keys (svc : services) (bucket : string) (t : trace)
    (files : list_objects_v2_response) (contents : list s3_object) :
  s3_list_objects_v2 svc t bucket = Return files ->
  Contents files = Some contents ->
  fetch_dicom_files svc bucket t
  = (t ++ [ES3ListObjectsV2 bucket;
           ELog INFO (Found_DICOM_files (length (dicom_keys contents)))],
     Return (dicom_keys contents))
  /\ (forall key,
        In key (dicom_keys contents)
        <-> In key (map Key contents)
            /\ exists p, key = (p ++ ".dcm")%string)
  /\ (forall before key after,
        map Key contents = before ++ key :: after ->
        dicom_keys contents
        = filter (fun k => endswith k ".dcm") before
          ++ (if endswith key ".dcm" then [key] else [])
          ++ filter (fun k => endswith k ".dcm") after).
Proof.
  intros Hlist Hsome. split; [|split].
  - rewrite fetch_dicom_files_run, Hlist, Hsome. reflexivity.
  - intros key. unfold dicom_keys. rewrite filter_In, endswith_iff.
    reflexivity.
  - intros before key after Hsplit. unfold dicom_keys.
    rewrite Hsplit, filter_app. simpl.
    destruct (endswith key ".dcm"); reflexivity.
Qed.

Lemma fetch_dicom_files_keys_witness :
  s3_list_objects_v2 Scenario.healthy [] Scenario.bucket
  = Return {| Contents := Some [ {| Key := "a.dcm" |}; {| Key := "notes.txt" |};
                                 {| Key := "b.dcm" |};
                                 {| Key := "c_processed.dcm" |} ] |}
  /\ fetch_dicom_files Scenario.healthy Scenario.bucket []
     = ([ES3ListObjectsV2 Scenario.bucket; ELog INFO (Found_DICOM_files 3)],
        Return ["a.dcm"; "b.dcm"; "c_processed.dcm"]).
Proof.
  split; [reflexivity|].
  refine (proj1 (fetch_dicom_files_keys Scenario.healthy Scenario.bucket []
                   {| Contents := Some [ {| Key := "a.dcm" |};
                                         {| Key := "notes.txt" |};
                                         {| Key := "b.dcm" |};
                                         {| Key := "c_processed.dcm" |} ] |}
                   [ {| Key := "a.dcm" |}; {| Key := "notes.txt" |};
                     {| Key := "b.dcm" |}; {| Key := "c_processed.dcm" |} ]
                   _ _)); reflexivity.
Defined.

(* ------------------------------------------------------------------ *)
(** ** More on the engine *)

Lemma asset_status_str (s : string) :
  asset_status (PyStr s)
  = if str_contains "processed" s then skipped else succeeded.
Proof.
  unfold asset_status. simpl. now destruct (str_contains "processed" s).
Qed.

(** X3: A [str] key is skipped exactly when it holds ["processed"] somewhere,
    and it succeeds otherwise: a [str] key never fails. *)
Theorem engine_skips_iff_key_holds_processed (s : string) (t : trace) :
  (asset_results (emitted (process_images [PyStr s]) t) = [(PyStr s, skipped)]
   <-> exists pre post, s = (pre ++ "processed" ++ post)%string)
  /\ (asset_results (emitted (process_images [PyStr s]) t)
      = [(PyStr s, succeeded)]
      <-> ~ exists pre post, s = (pre ++ "processed" ++ post)%string).
Proof.
  rewrite process_images_logged. simpl map. rewrite asset_status_str.
  rewrite <- str_contains_iff.
  destruct (str_contains "processed" s); split; split;
    try reflexivity; try discriminate; try congruence.
Qed.

Lemma engine_skips_iff_key_holds_processed_witness :
  asset_results (emitted (process_images [PyStr "scans/reprocessed/a.dcm"]) [])
  = [(PyStr "scans/reprocessed/a.dcm", skipped)].
Proof.
  apply (proj1 (engine_skips_iff_key_holds_processed
                  "scans/reprocessed/a.dcm" [])).
  exists "scans/re", "/a.dcm". reflexivity.
Defined.

Lemma asset_output_form (files : list pyval) :
  Forall (fun key => exists s, key = (s ++ "_processed")%string)
         (flat_map asset_output files).
Proof.
  induction files as [|file files IH]; [constructor|].
  simpl. apply Forall_app. split; [|exact IH].
  destruct file as [| b | s | l]; simpl; try constructor.
  destruct (str_contains "processed" s); constructor; [|constructor].
  now exists s.
Qed.

Lemma output_keys_are_skipped (keys : list string) :
  Forall (fun key => exists s, key = (s ++ "_processed")%string) keys ->
  flat_map asset_output (map PyStr keys) = []
  /\ map (fun file => (file, asset_status file)) (map PyStr keys)
     = map (fun key => (PyStr key, skipped)) keys.
Proof.
  induction 1 as [|key keys (s & ->) _ [IH1 IH2]]; [split; reflexivity|].
  simpl. rewrite IH1, IH2, asset_status_str, output_key_contains_processed.
  split; reflexivity.
Qed.

(** X4: Run on the keys it has returned, the engine skips every one of them
    and returns the empty list: what has been processed is not processed
    again. *)
Theorem engine_skips_its_own_outputs (files : list pyval) (t t' : trace)
    (processed_files : list string) :
  result (process_images files) t = Return processed_files ->
  result (process_images (map PyStr processed_files)) t' = Return []
  /\ asset_results (emitted (process_images (map PyStr processed_files)) t')
     = map (fun key => (PyStr key, skipped)) processed_files.
Proof.
  rewrite process_images_result. intros Hout. injection Hout as <-.
  destruct (output_keys_are_skipped _ (asset_output_form files)) as [H1 H2].
  rewrite process_images_result, process_images_logged, H1, H2.
  split; reflexivity.
Qed.

Lemma engine_skips_its_own_outputs_witness :
  result (process_images [PyStr "a.dcm"; PyStr "scan_b.dcm"]) []
  = Return ["a.dcm_processed"; "scan_b.dcm_processed"]
  /\ result (process_images
               (map PyStr ["a.dcm_processed"; "scan_b.dcm_processed"])) []
     = Return [].
Proof.
  split; [reflexivity|].
  refine (proj1 (engine_skips_its_own_outputs
                   [PyStr "a.dcm"; PyStr "scan_b.dcm"] [] []
                   ["a.dcm_processed"; "scan_b.dcm_processed"] _)).
  reflexivity.
Defined.

Lemma output_keys_not_listed (keys : list string) :
  Forall (fun key => exists s, key = (s ++ "_processed")%string) keys ->
  dicom_keys (map object_of_key keys) = [].
Proof.
  unfold dicom_keys.
  induction 1 as [|key keys (s & ->) _ IH]; [reflexivity|].
  simpl. now rewrite output_key_not_dicom.
Qed.

(** X5: The keys the engine returns do not end with [".dcm"]: a bucket that
    holds just these keys gives the lister nothing, and the run ends with
    "No DICOM files to process". *)
Theorem lister_drops_engine_outputs (files : list pyval) (t : trace)
    (processed_files : list string) (svc : services) (bucket topic : string)
    (t0 : trace) (listing : list_objects_v2_response) :
  result (process_images files) t = Return processed_files ->
  s3_list_objects_v2 svc t0 bucket = Return listing ->
  Contents listing = Some (map object_of_key processed_files) ->
  run_pipeline svc bucket topic t0
  = (t0 ++ [ES3ListObjectsV2 bucket; ELog INFO (Found_DICOM_files 0);
            ELog INFO No_DICOM_files_to_process], Return tt).
Proof.
  rewrite process_images_result. intros Hout Hlist Hcontents.
  injection Hout as <-.
  unfold run_pipeline, bind.
  rewrite fetch_dicom_files_run, Hlist, Hcontents.
  rewrite (output_keys_not_listed _ (asset_output_form files)).
  simpl. unfold logging_info, emit. now rewrite <- app_assoc.
Qed.

Lemma lister_drops_engine_outputs_witness :
  result (process_images [PyStr "a.dcm"; PyStr "b.dcm"]) []
  = Return ["a.dcm_processed"; "b.dcm_processed"]
  /\ run_pipeline
       (Scenario.with_bucket ["a.dcm_processed"; "b.dcm_processed"])
       Scenario.bucket Scenario.topic []
     = ([ES3ListObjectsV2 Scenario.bucket; ELog INFO (Found_DICOM_files 0);
         ELog INFO No_DICOM_files_to_process], Return tt).
Proof.
  split; [reflexivity|].
  apply (lister_drops_engine_outputs [PyStr "a.dcm"; PyStr "b.dcm"] []
           ["a.dcm_processed"; "b.dcm_processed"]
           (Scenario.with_bucket ["a.dcm_processed"; "b.dcm_processed"])
           Scenario.bucket Scenario.topic []
           {| Contents := Some (map object_of_key
                                  ["a.dcm_processed"; "b.dcm_processed"]) |});
    reflexivity.
Defined.

(** X6: A batch can be cut anywhere: when the engine returns on each of two
    lists, it returns on their concatenation the keys of the first list
    followed by those of the second, and it logs the results of the first
    list followed by those of the second. *)
Theorem process_images_app (files1 files2 : list pyval) (t t1 t2 : trace)
    (out1 out2 : list string) :
  result (process_images files1) t1 = Return out1 ->
  result (process_images files2) t2 = Return out2 ->
  result (process_images (files1 ++ files2)) t = Return (out1 ++ out2)
  /\ asset_results (emitted (process_images (files1 ++ files2)) t)
     = asset_results (emitted (process_images files1) t1)
       ++ asset_results (emitted (process_images files2) t2).
Proof.
  rewrite !process_images_result. intros H1 H2.
  injection H1 as <-. injection H2 as <-.
  rewrite !process_images_logged, flat_map_app, map_app.
  split; reflexivity.
Qed.

Lemma process_images_app_witness :
  result (process_images [PyStr "a.dcm"; PyStr "old_processed.dcm"]) []
  = Return ["a.dcm_processed"]
  /\ result (process_images [PyStr "b.dcm"]) [] = Return ["b.dcm_processed"]
  /\ result (process_images
               ([PyStr "a.dcm"; PyStr "old_processed.dcm"] ++ [PyStr "b.dcm"]))
            []
     = Return (["a.dcm_processed"] ++ ["b.dcm_processed"]).
Proof.
  split; [reflexivity|]. split; [reflexivity|].
  refine (proj1 (process_images_app
                   [PyStr "a.dcm"; PyStr "old_processed.dcm"] [PyStr "b.dcm"]
                   [] [] [] ["a.dcm_processed"] ["b.dcm_processed"] _ _));
    reflexivity.
Defined.

(* ------------------------------------------------------------------ *)
(** ** More on the orchestrator *)

Lemma count_is_failed_app (t1 t2 : trace) :
  count is_failed_record (t1 ++ t2)
  = count is_failed_record t1 + count is_failed_record t2.
Proof. apply count_app. Qed.

Lemma str_keys_never_fail (keys : list string) :
  count is_failed_record (flat_map asset_events (map PyStr keys)) = 0.
Proof.
  induction keys as [|key keys IH]; [reflexivity|].
  simpl. rewrite count_app, IH, asset_events_str.
  destruct (str_contains "processed" key); [reflexivity|].
  rewrite count_app. reflexivity.
Qed.

Lemma str_keys_output (keys : list string) :
  flat_map asset_output (map PyStr keys)
  = map (fun key => (key ++ "_processed")%string) (unprocessed keys).
Proof.
  unfold unprocessed. induction keys as [|key keys IH]; [reflexivity|].
  simpl. rewrite IH. now destruct (str_contains "processed" key).
Qed.

(** The two ways the engine followed by the notifier ends. *)
Lemma run_pipeline_then_cases (svc : services) (topic : string)
    (files : list pyval) (t : trace) :
  let message := completion_message (flat_map asset_output files) in
  let subject := Some "DICOM Processing Notification" in
  let t2 := t ++ (EEnter M_process_images :: flat_map asset_events files)
              ++ [EEnter M_notify_completion] in
  run_pipeline_then svc topic files t =
  match sns_publish svc t2 topic message subject with
  | Return _ =>
      (t2 ++ [ESnsPublish topic message subject;
              ELog INFO Notification_sent_for_processed_files], Return tt)
  | Raise e => (t2 ++ [ESnsPublish topic message subject], Raise e)
  end.
Proof.
  cbv zeta. unfold run_pipeline_then, bind.
  rewrite process_images_run, notify_completion_run. cbv zeta.
  rewrite <- !app_assoc. simpl.
  destruct (sns_publish svc _ topic _ _); rewrite <- ?app_assoc; reflexivity.
Qed.

Lemma fetch_dicom_files_returns (svc : services) (bucket : string)
    (t t1 : trace) (keys : list string) :
  fetch_dicom_files svc bucket t = (t1, Return keys) ->
  t1 = t ++ [ES3ListObjectsV2 bucket;
             ELog INFO (Found_DICOM_files (length keys))].
Proof.
  rewrite fetch_dicom_files_run.
  destruct (s3_list_objects_v2 svc t bucket) as [files | e]; [|discriminate].
  destruct (Contents files) as [contents|]; [|discriminate].
  intros H. injection H as <- <-. reflexivity.
Qed.

(** X7: No asset fails in a run of the pipeline: the lister hands [str] keys to
    the engine, on which neither the test nor the concatenation raises, so
    that the handler of the engine is never entered. *)
Theorem run_pipeline_never_fails_an_asset (svc : services)
    (bucket topic : string) (t : trace) :
  count is_failed_record (emitted (run_pipeline svc bucket topic) t) = 0.
Proof.
  destruct (fetch_dicom_files svc bucket t) as [t1 [keys | e]] eqn:Hfetch.
  - pose proof (fetch_dicom_files_returns _ _ _ _ _ Hfetch) as ->.
    destruct keys as [|key keys].
    + assert (Hrun : run_pipeline svc bucket topic t
                     = (t ++ [ES3ListObjectsV2 bucket;
                              ELog INFO (Found_DICOM_files 0);
                              ELog INFO No_DICOM_files_to_process],
                        Return tt)).
      { unfold run_pipeline, bind. rewrite Hfetch. simpl.
        unfold logging_info, emit. now rewrite <- app_assoc. }
      now rewrite (emitted_eq _ _ _ _ Hrun).
    + assert (Hrun : exists tail r,
                 run_pipeline svc bucket topic t
                 = (t ++ [ES3ListObjectsV2 bucket;
                          ELog INFO (Found_DICOM_files (length (key :: keys)))]
                      ++ (EEnter M_process_images
                          :: flat_map asset_events (map PyStr (key :: keys)))
                      ++ EEnter M_notify_completion :: tail, r)
                 /\ count is_failed_record tail = 0).
      { unfold run_pipeline, bind. rewrite Hfetch. cbn [truthy].
        rewrite run_pipeline_then_cases. cbv zeta.
        destruct (sns_publish svc _ topic _ _); eexists; eexists;
          (split; [rewrite <- !app_assoc; reflexivity | reflexivity]). }
      destruct Hrun as (tail & r & Hrun & Htail).
      rewrite (emitted_eq _ _ _ _ Hrun).
      change (EEnter M_notify_completion :: tail)
        with ([EEnter M_notify_completion] ++ tail).
      change (EEnter M_process_images :: ?l)
        with ([EEnter M_process_images] ++ l).
      rewrite !count_app, str_keys_never_fail, Htail. reflexivity.
  - assert (Hrun : run_pipeline svc bucket topic t = (t1, Raise e)).
    { unfold run_pipeline, bind. now rewrite Hfetch. }
    revert Hfetch Hrun. rewrite fetch_dicom_files_run.
    destruct (s3_list_objects_v2 svc t bucket) as [files | e0].
    + destruct (Contents files) as [contents|]; [discriminate|].
      intros H Hrun. injection H as <- <-.
      now rewrite (emitted_eq _ _ _ _ Hrun).
    + intros H Hrun. injection H as <- <-.
      now rewrite (emitted_eq _ _ _ _ Hrun).
Qed.

(** X8: End to end: when the listing answers with objects of which at least one
    key ends with [".dcm"], the run publishes one message, which lists, in
    the order of the listing, [key + "_processed"] for the keys that end
    with [".dcm"] and do not hold ["processed"]. *)
Theorem run_pipeline_message (svc : services) (bucket topic : string)
    (t : trace) (files : list_objects_v2_response)
    (contents : list s3_object) :
  s3_list_objects_v2 svc t bucket = Return files ->
  Contents files = Some contents ->
  dicom_keys contents <> [] ->
  publishes (emitted (run_pipeline svc bucket topic) t)
  = [(topic,
      ("Processing completed for files: "
       ++ join ", " (map (fun key => key ++ "_processed")
                         (unprocessed (dicom_keys contents))))%string)].
Proof.
  intros Hlist Hcontents Hne.
  pose proof (fetch_dicom_files_run svc bucket t) as Hfetch.
  rewrite Hlist, Hcontents in Hfetch.
  destruct (run_pipeline_non_empty svc bucket topic t _ _ Hfetch Hne)
    as (evs & Hq & Hrun).
  rewrite Hrun, publishes_app, (quiet_publishes _ Hq).
  destruct (run_pipeline_then_calls svc topic
              (map PyStr (dicom_keys contents)) (t ++ evs))
    as (_ & _ & _ & Hp).
  rewrite Hp, str_keys_output. reflexivity.
Qed.

Lemma run_pipeline_message_witness :
  dicom_keys [ {| Key := "a.dcm" |}; {| Key := "notes.txt" |};
               {| Key := "b.dcm" |}; {| Key := "c_processed.dcm" |} ]
  <> []
  /\ publishes
       (emitted (run_pipeline Scenario.healthy Scenario.bucket Scenario.topic)
                [])
     = [(Scenario.topic,
         "Processing completed for files: a.dcm_processed, b.dcm_processed")].
Proof.
  split; [discriminate|].
  apply (run_pipeline_message Scenario.healthy Scenario.bucket Scenario.topic
           []
           {| Contents := Some [ {| Key := "a.dcm" |}; {| Key := "notes.txt" |};
                                 {| Key := "b.dcm" |};
                                 {| Key := "c_processed.dcm" |} ] |}
           [ {| Key := "a.dcm" |}; {| Key := "notes.txt" |};
             {| Key := "b.dcm" |}; {| Key := "c_processed.dcm" |} ]);
    [reflexivity | reflexivity | discriminate].
Defined.

(** X9: When the publish request of a non-empty run fails, the error leaves
    [notify_completion] and [run_pipeline] uncaught; by then the engine has
    run and logged the result of every asset; "Notification sent" is not
    logged, and the request is not repeated.  The request is the one the
    notifier sends once the engine has returned. *)
Theorem run_pipeline_publish_failure (svc : services) (bucket topic : string)
    (t t1 t2 : trace) (keys processed_files : list string) (e : pyexc) :
  fetch_dicom_files svc bucket t = (t1, Return keys) ->
  keys <> [] ->
  process_images (map PyStr keys) t1 = (t2, Return processed_files) ->
  sns_publish svc (t2 ++ [EEnter M_notify_completion]) topic
    (completion_message processed_files)
    (Some "DICOM Processing Notification")
  = Raise e ->
  let run := run_pipeline svc bucket topic in
  result run t = Raise e
  /\ asset_results (emitted run t)
     = map (fun key => (PyStr key, asset_status (PyStr key))) keys
  /\ count is_publish (emitted run t) = 1
  /\ count is_notification_sent (emitted run t) = 0.
Proof.
  intros Hfetch Hne Hengine Hdown run.
  pose proof (fetch_dicom_files_returns _ _ _ _ _ Hfetch) as ->.
  rewrite process_images_run in Hengine. injection Hengine as <- <-.
  assert (Hrun : run t
                 = (t ++ [ES3ListObjectsV2 bucket;
                          ELog INFO (Found_DICOM_files (length keys))]
                      ++ (EEnter M_process_images
                          :: flat_map asset_events (map PyStr keys))
                      ++ [EEnter M_notify_completion;
                          ESnsPublish topic
                            (completion_message
                               (flat_map asset_output (map PyStr keys)))
                            (Some "DICOM Processing Notification")],
                    Raise e)).
  { unfold run, run_pipeline, bind. rewrite Hfetch.
    destruct keys as [|key keys]; [congruence|]. cbn [truthy].
    rewrite run_pipeline_then_cases. cbv zeta.
    rewrite <- !app_assoc in Hdown. rewrite <- !app_assoc.
    simpl app in *. rewrite Hdown. reflexivity. }
  rewrite (emitted_eq _ _ _ _ Hrun), (result_eq _ _ _ _ Hrun).
  pose proof (batch_quiet (map PyStr keys)) as Hq.
  change (EEnter M_process_images :: ?l) with ([EEnter M_process_images] ++ l).
  repeat split.
  - rewrite !asset_results_app, batch_results, map_map. simpl.
    now rewrite app_nil_r.
  - rewrite !count_app, (quiet_count_publish _ Hq). reflexivity.
  - rewrite !count_app.
    assert (Hn : count is_notification_sent
                   (flat_map asset_events (map PyStr keys)) = 0).
    { clear. induction keys as [|key keys IH]; [reflexivity|].
      simpl. rewrite count_app, IH, asset_events_str.
      destruct (str_contains "processed" key); [reflexivity|].
      rewrite count_app. reflexivity. }
    rewrite Hn. reflexivity.
Qed.

Lemma run_pipeline_publish_failure_witness :
  fetch_dicom_files publish_down Scenario.bucket []
  = ([ES3ListObjectsV2 Scenario.bucket; ELog INFO (Found_DICOM_files 3)],
     Return ["a.dcm"; "b.dcm"; "c_processed.dcm"])
  /\ snd (process_images (map PyStr ["a.dcm"; "b.dcm"; "c_processed.dcm"])
             [ES3ListObjectsV2 Scenario.bucket;
              ELog INFO (Found_DICOM_files 3)])
     = Return ["a.dcm_processed"; "b.dcm_processed"]
  /\ result (run_pipeline publish_down Scenario.bucket Scenario.topic) []
     = Raise (Scenario.ClientError "AuthorizationError").
Proof.
  split; [reflexivity|]. split; [reflexivity|].
  refine (proj1 (run_pipeline_publish_failure publish_down Scenario.bucket
                   Scenario.topic []
                   [ES3ListObjectsV2 Scenario.bucket;
                    ELog INFO (Found_DICOM_files 3)]
                   (fst (process_images
                           (map PyStr ["a.dcm"; "b.dcm"; "c_processed.dcm"])
                           [ES3ListObjectsV2 Scenario.bucket;
                            ELog INFO (Found_DICOM_files 3)]))
                   ["a.dcm"; "b.dcm"; "c_processed.dcm"]
                   ["a.dcm_processed"; "b.dcm_processed"]
                   (Scenario.ClientError "AuthorizationError") _ _ _ _));
    [reflexivity | discriminate | reflexivity | reflexivity].
Defined.

(* ------------------------------------------------------------------ *)
(** ** More on the support system *)

(** X11: [send_notification] sends exactly one publish request, to the topic and
    with the message it is given, and an error of the request does not
    leave it: it returns the response of the request, or [None] when the
    request raised an [Exception], logged as an error. *)
Theorem send_notification_outcomes (svc : services)
    (message topic_arn : string) (t : trace) :
  publishes (emitted (send_notification svc message topic_arn) t)
  = [(topic_arn, message)]
  /\ count is_publish (emitted (send_notification svc message topic_arn) t) = 1
  /\ match sns_publish svc t topic_arn message None with
     | Return response =>
         send_notification svc message topic_arn t
         = (t ++ [ESnsPublish topic_arn message None;
                  ELog INFO (Notification_sent_to topic_arn message)],
            Return (Some response))
     | Raise e =>
         if exc_is_Exception e
         then send_notification svc message topic_arn t
              = (t ++ [ESnsPublish topic_arn message None;
                       ELog ERROR (Error_sending_notification (exc_str e))],
                 Return None)
         else send_notification svc message topic_arn t
              = (t ++ [ESnsPublish topic_arn message None], Raise e)
     end.
Proof.
  pose proof (send_notification_run svc message topic_arn t) as Hrun.
  destruct (sns_publish svc t topic_arn message None) as [response | e];
    [|destruct (exc_is_Exception e)];
    rewrite (emitted_eq _ _ _ _ Hrun); repeat split; exact Hrun.
Qed.

Lemma monitor_system_health_with_actions_witness :
  cloudwatch_describe_alarms publish_down [] "ALARM"
  = Return {| MetricAlarms := healthy_alarms |}
  /\ result (monitor_system_health publish_down) [] = Return tt
  /\ publishes (emitted (monitor_system_health publish_down) [])
     = [("arn:aws:sns:us-west-2:123456789012:alert-topic",
         "Alarm HighCPUUtilization triggered");
        ("arn:aws:sns:us-west-2:123456789012:ops",
         "Alarm DiskFull triggered")].
Proof.
  split; [reflexivity|].
  refine (monitor_system_health_with_actions publish_down _ []
            {| MetricAlarms := healthy_alarms |} _ _).
  - intros t topic_arn message e H. injection H as <-. reflexivity.
  - reflexivity.
  - repeat constructor; discriminate.
Defined.

Lemma monitor_system_health_without_action_witness :
  result (monitor_system_health
            (Scenario.with_alarms
               ({| AlarmName := "HighCPUUtilization";
                   AlarmActions :=
                     ["arn:aws:sns:us-west-2:123456789012:alert-topic"] |}
                :: Scenario.alarms_one_without_action))) []
  = Raise (IndexError "list index out of range")
  /\ publishes
       (emitted (monitor_system_health
                   (Scenario.with_alarms
                      ({| AlarmName := "HighCPUUtilization";
                          AlarmActions :=
                            ["arn:aws:sns:us-west-2:123456789012:alert-topic"]
                       |} :: Scenario.alarms_one_without_action))) [])
     = [("arn:aws:sns:us-west-2:123456789012:alert-topic",
         "Alarm HighCPUUtilization triggered")].
Proof.
  refine (monitor_system_health_without_action
            (Scenario.with_alarms
               ({| AlarmName := "HighCPUUtilization";
                   AlarmActions :=
                     ["arn:aws:sns:us-west-2:123456789012:alert-topic"] |}
                :: Scenario.alarms_one_without_action)) _ []
            [ {| AlarmName := "HighCPUUtilization";
                 AlarmActions :=
                   ["arn:aws:sns:us-west-2:123456789012:alert-topic"] |} ]
            [ {| AlarmName := "DiskFull";
                 AlarmActions := ["arn:aws:sns:us-west-2:123456789012:ops"] |} ]
            {| AlarmName := "LegacyProbe"; AlarmActions := [] |} _ _ _).
  - intros t topic_arn message e H. discriminate H.
  - reflexivity.
  - repeat constructor; discriminate.
  - reflexivity.
Defined.

Lemma log_findings_run (rows : list query_result) :
  forall t,
    for_in rows
      (fun result => log_event (Unusual_access_pattern_detected result)
                               "warning") t
    = (t ++ map finding_record rows, Return tt).
Proof.
  induction rows as [|row rows IH]; intros t.
  - simpl. now rewrite app_nil_r.
  - cbn [for_in map]. unfold bind.
    change (log_event (Unusual_access_pattern_detected row) "warning" t)
      with (t ++ [finding_record row], Return tt).
    cbv beta iota. rewrite IH, <- app_assoc. reflexivity.
Qed.

Lemma findings_of_records (rows : list query_result) :
  findings (map finding_record rows) = rows.
Proof. induction rows as [|row rows IH]; simpl; [|rewrite IH]; reflexivity. Qed.

Lemma records_are_no_request (rows : list query_result) :
  count is_start_query (map finding_record rows) = 0
  /\ count is_get_query_results (map finding_record rows) = 0.
Proof. induction rows as [|row rows IH]; [split; reflexivity | exact IH]. Qed.

(** The three ways the suite of the scan ends. *)
Lemma audit_system_access_try_run (svc : services) (t : trace) :
  let start := datetime_day_ago_timestamp svc t in
  let stop := datetime_now_timestamp svc (t ++ [EDatetimeNow]) in
  let submit :=
    ELogsStartQuery "/aws/lambda/dicom-handler" start stop audit_query in
  audit_system_access_try svc t =
  match logs_start_query svc (t ++ [EDatetimeNow; EDatetimeNow])
          "/aws/lambda/dicom-handler" start stop audit_query with
  | Raise e => (t ++ [EDatetimeNow; EDatetimeNow; submit], Raise e)
  | Return start_query_response =>
      let retrieve := ELogsGetQueryResults (queryId start_query_response) in
      match logs_get_query_results svc
              (t ++ [EDatetimeNow; EDatetimeNow; submit])
              (queryId start_query_response) with
      | Raise e =>
          (t ++ [EDatetimeNow; EDatetimeNow; submit; retrieve], Raise e)
      | Return response =>
          (t ++ [EDatetimeNow; EDatetimeNow; submit; retrieve]
             ++ map finding_record (results response), Return tt)
      end
  end.
Proof.
  cbv zeta. cbv [audit_system_access_try day_ago_timestamp now_timestamp bind request].
  rewrite <- !app_assoc. simpl app.
  destruct (logs_start_query svc _ _ _ _ _) as [start_query_response | e];
    [|reflexivity].
  rewrite <- !app_assoc. simpl app.
  destruct (logs_get_query_results svc _ _) as [response | e];
    [|reflexivity].
  rewrite log_findings_run, <- !app_assoc. reflexivity.
Qed.

(** X14: The scan reads the clock twice and submits the window that goes
    from the value of the day-ago expression at the first reading to the
    timestamp of the second reading.  When the query is accepted and its
    results are retrieved, the scan reads the results once, right after the
    submission, logs one warning per row of the answer, in the order of
    the answer, and returns [None]. *)
Theorem audit_system_access_reports_findings (svc : services) (t : trace)
    (start_query_response : start_query_response)
    (response : get_query_results_response) :
  let start := datetime_day_ago_timestamp svc t in
  let stop := datetime_now_timestamp svc (t ++ [EDatetimeNow]) in
  let submit :=
    ELogsStartQuery "/aws/lambda/dicom-handler" start stop audit_query in
  logs_start_query svc (t ++ [EDatetimeNow; EDatetimeNow])
    "/aws/lambda/dicom-handler" start stop audit_query
  = Return start_query_response ->
  logs_get_query_results svc (t ++ [EDatetimeNow; EDatetimeNow; submit])
    (queryId start_query_response)
  = Return response ->
  audit_system_access svc t
  = (t ++ [EDatetimeNow; EDatetimeNow; submit;
           ELogsGetQueryResults (queryId start_query_response)]
       ++ map finding_record (results response), Return None)
  /\ findings (emitted (audit_system_access svc) t) = results response.
Proof.
  intros start stop submit Hstart Hget.
  pose proof (audit_system_access_try_run svc t) as Htry. cbv zeta in Htry.
  fold start stop submit in Htry. rewrite Hstart, Hget in Htry.
  assert (Hrun : audit_system_access svc t
                 = (t ++ [EDatetimeNow; EDatetimeNow; submit;
                          ELogsGetQueryResults (queryId start_query_response)]
                      ++ map finding_record (results response),
                    Return None)).
  { unfold audit_system_access, bind, try_except. now rewrite Htry. }
  split; [exact Hrun|].
  rewrite (emitted_eq _ _ _ _ Hrun). apply findings_of_records.
Qed.

Lemma audit_system_access_reports_findings_witness :
  logs_start_query with_findings [EDatetimeNow; EDatetimeNow]
    "/aws/lambda/dicom-handler" 1699913600 1700000001 audit_query
  = Return {| queryId := "q-1" |}
  /\ logs_get_query_results with_findings
       [EDatetimeNow; EDatetimeNow;
        ELogsStartQuery "/aws/lambda/dicom-handler" 1699913600 1700000001
                        audit_query] "q-1"
     = Return {| results := two_rows |}
  /\ findings (emitted (audit_system_access with_findings) []) = two_rows.
Proof.
  split; [reflexivity|]. split; [reflexivity|].
  refine (proj2 (audit_system_access_reports_findings with_findings []
                   {| queryId := "q-1" |} {| results := two_rows |} _ _));
    reflexivity.
Defined.

(** X15: Whatever the services answer, the scan submits exactly one query,
    retrieves results at most once, and ends in one of two ways: it returns
    [None], or it is ended by an exception that is not an [Exception].  No
    error of the log service reaches the caller. *)
Theorem audit_system_access_outcomes (svc : services) (t : trace) :
  count is_start_query (emitted (audit_system_access svc) t) = 1
  /\ count is_get_query_results (emitted (audit_system_access svc) t) <= 1
  /\ (result (audit_system_access svc) t = Return None
      \/ exists e, result (audit_system_access svc) t = Raise e
                   /\ exc_is_Exception e = false).
Proof.
  pose proof (audit_system_access_try_run svc t) as Htry. cbv zeta in Htry.
  set (start := (datetime_day_ago_timestamp svc t)) in *.
  set (stop := datetime_now_timestamp svc (t ++ [EDatetimeNow])) in *.
  set (submit := ELogsStartQuery "/aws/lambda/dicom-handler" start stop
                                 audit_query) in *.
  assert (Hcases : exists evs r,
             audit_system_access svc t = (t ++ evs, r)
             /\ count is_start_query evs = 1
             /\ count is_get_query_results evs <= 1
             /\ (r = Return None
                 \/ exists e, r = Raise e /\ exc_is_Exception e = false)).
  { unfold audit_system_access, bind, try_except. rewrite Htry.
    destruct (logs_start_query svc _ _ _ _ _) as [sq | e].
    - destruct (logs_get_query_results svc _ _) as [response | e].
      + eexists. eexists. split; [reflexivity|].
        destruct (records_are_no_request (results response)) as [H1 H2].
        change [EDatetimeNow; EDatetimeNow; submit;
                ELogsGetQueryResults (queryId sq)]
          with ([EDatetimeNow; EDatetimeNow; submit]
                ++ [ELogsGetQueryResults (queryId sq)]).
        rewrite !count_app, H1, H2. simpl.
        repeat split; [lia | now left].
      + destruct (exc_is_Exception e) eqn:He.
        * eexists. eexists. cbn. rewrite <- app_assoc.
          split; [reflexivity|]. repeat split; [cbn; lia | now left].
        * eexists. eexists. split; [reflexivity|].
          repeat split; [cbn; lia | right; now exists e].
    - destruct (exc_is_Exception e) eqn:He.
      + eexists. eexists. cbn. rewrite <- app_assoc.
        split; [reflexivity|]. repeat split; [cbn; lia | now left].
      + eexists. eexists. split; [reflexivity|].
        repeat split; [cbn; lia | right; now exists e]. }
  destruct Hcases as (evs & r & Hrun & H1 & H2 & H3).
  rewrite (emitted_eq _ _ _ _ Hrun), (result_eq _ _ _ _ Hrun).
  repeat split; assumption.
Qed.

(** X16: The remediator sends exactly one invocation request, of type ["Event"],
    for the function and with the payload it is given.  It returns the
    response of the request, or [None] when the request raised an
    [Exception]; only an exception that is not an [Exception] leaves it. *)
Theorem auto_resolve_issues_outcomes (svc : services)
    (function_name payload : string) (t : trace) :
  invocations (emitted (auto_resolve_issues svc function_name payload) t)
  = [(function_name, "Event", payload)]
  /\ match lambda_invoke svc t function_name "Event" payload with
     | Return response =>
         auto_resolve_issues svc function_name payload t
         = (t ++ [ELambdaInvoke function_name "Event" payload;
                  ELog INFO (Invoked_Lambda_function function_name)],
            Return (Some response))
     | Raise e =>
         if exc_is_Exception e
         then auto_resolve_issues svc function_name payload t
              = (t ++ [ELambdaInvoke function_name "Event" payload;
                       ELog ERROR
                         (Error_invoking_Lambda_function (exc_str e))],
                 Return None)
         else auto_resolve_issues svc function_name payload t
              = (t ++ [ELambdaInvoke function_name "Event" payload], Raise e)
     end.
Proof.
  assert (Hrun : auto_resolve_issues svc function_name payload t =
    match lambda_invoke svc t function_name "Event" payload with
    | Return response =>
        (t ++ [ELambdaInvoke function_name "Event" payload;
               ELog INFO (Invoked_Lambda_function function_name)],
         Return (Some response))
    | Raise e =>
        if exc_is_Exception e
        then (t ++ [ELambdaInvoke function_name "Event" payload;
                    ELog ERROR (Error_invoking_Lambda_function (exc_str e))],
              Return None)
        else (t ++ [ELambdaInvoke function_name "Event" payload], Raise e)
    end).
  { cbv [auto_resolve_issues try_except bind request].
    destruct (lambda_invoke svc t function_name "Event" payload) as [r | e];
      [|destruct (exc_is_Exception e)]; cbn; rewrite <- ?app_assoc;
      reflexivity. }
  destruct (lambda_invoke svc t function_name "Event" payload) as [r | e];
    [|destruct (exc_is_Exception e)];
    rewrite (emitted_eq _ _ _ _ Hrun); split; (reflexivity || exact Hrun).
Qed.
